(** * upload_or_check_non_existence.py: a shallow embedding

    The script lists locally built conda packages, asks the anaconda.org
    API which of them already exist for an owner, uploads the new ones and
    retries the whole batch with a quadratic back-off.

    Python strings are lists of characters, exceptions are values of [exn]
    carried by [result], and every external collaborator (the binstar
    client, the file system, the [anaconda] command, the clock) is a field
    of [Env], a transition on an abstract world state [W].  The calls made
    to those collaborators are recorded in a trace of [event]s. *)

From Stdlib Require Import Ascii String DecimalString.
From Stdlib Require Import List Arith Lia Bool.
Import ListNotations.

Set Implicit Arguments.

(** ** Strings *)

Definition str := list ascii.

Definition lit (s : string) : str := list_ascii_of_string s.
Arguments lit s%_string.

Fixpoint str_eqb (a b : str) : bool :=
  match a, b with
  | [], [] => true
  | x :: a', y :: b' => Ascii.eqb x y && str_eqb a' b'
  | _, _ => false
  end.

(** [s.startswith(pre)] *)
Fixpoint startswith (s pre : str) : bool :=
  match pre, s with
  | [], _ => true
  | p :: pre', c :: s' => Ascii.eqb c p && startswith s' pre'
  | _ :: _, [] => false
  end.

(** [s.endswith(suf)]: the last [len(suf)] characters are compared. *)
Definition endswith (s suf : str) : bool :=
  (length suf <=? length s) && str_eqb (skipn (length s - length suf) s) suf.

(** [s[:-n]] for a positive literal [n]. *)
Definition drop_last (n : nat) (s : str) : str := firstn (length s - n) s.

(** [s.split(sep)] for a one-character separator. *)
Fixpoint split (s : str) (sep : ascii) : list str :=
  match s with
  | [] => [[]]
  | c :: t =>
      if Ascii.eqb c sep then [] :: split t sep
      else match split t sep with
           | h :: r => (c :: h) :: r
           | [] => [[c]]
           end
  end.

(** [s.rfind(sep)], [None] standing for Python's -1. *)
Fixpoint rfind (s : str) (sep : ascii) : option nat :=
  match s with
  | [] => None
  | c :: t =>
      match rfind t sep with
      | Some i => Some (S i)
      | None => if Ascii.eqb c sep then Some 0 else None
      end
  end.

(** [s.rsplit(sep, 1)] for a one-character separator: at most one cut, at
    the rightmost separator. *)
Definition rsplit1 (s : str) (sep : ascii) : list str :=
  match rfind s sep with
  | Some i => [firstn i s; skipn (S i) s]
  | None => [s]
  end.

(** [str(n)] for a non-negative integer. *)
Definition str_of_nat (n : nat) : str :=
  lit (NilZero.string_of_uint (Nat.to_uint n)).

(** ** Exceptions and results *)

Inductive exn_class :=
| RuntimeError
| ValueError
| TypeError
| TimeoutError
| OSError
| NotFound            (* binstar_client.errors.NotFound *)
| CalledProcessError  (* subprocess.CalledProcessError *)
| OtherException      (* any further subclass of Exception *)
| KeyboardInterrupt   (* BaseException, not an Exception *)
| SystemExit.         (* BaseException, not an Exception *)

Record exn := Exn { exn_cls : exn_class; exn_msg : str }.

(** [isinstance(e, Exception)] *)
Definition is_Exception (e : exn) : bool :=
  match exn_cls e with
  | KeyboardInterrupt | SystemExit => false
  | _ => true
  end.

(** [isinstance(e, binstar_client.errors.NotFound)] *)
Definition is_NotFound (e : exn) : bool :=
  match exn_cls e with
  | NotFound => true
  | _ => false
  end.

Inductive result (A : Type) :=
| Return (a : A)
| Raise (e : exn).
Arguments Return {A} a.
Arguments Raise {A} e.

Definition rbind {A B} (r : result A) (k : A -> result B) : result B :=
  match r with
  | Return a => k a
  | Raise e => Raise e
  end.

(** [a, b = l]: unpacking into exactly two targets. *)
Definition unpack2 (l : list str) : result (str * str) :=
  match l with
  | [a; b] => Return (a, b)
  | [] => Raise (Exn ValueError (lit "not enough values to unpack (expected 2, got 0)"))
  | [_] => Raise (Exn ValueError (lit "not enough values to unpack (expected 2, got 1)"))
  | _ => Raise (Exn ValueError (lit "too many values to unpack (expected 2)"))
  end.

(** ** split_pkg *)

Definition tar_bz2 : str := lit ".tar.bz2".

Definition split_pkg (pkg : str) : result (str * str * str * str) :=
  if negb (endswith pkg tar_bz2) then
    Raise (Exn RuntimeError (lit "Can only process packages that end in .tar.bz2"))
  else
    let pkg := drop_last 8 pkg in
    rbind (unpack2 (split pkg "/"%char)) (fun '(plat, pkg_name) =>
    rbind (unpack2 (rsplit1 pkg_name "-"%char)) (fun '(name_ver, build) =>
    rbind (unpack2 (rsplit1 name_ver "-"%char)) (fun '(name, ver) =>
    Return (plat, name, ver, build)))).

(** ** os.path (posixpath) *)

Definition sep : ascii := "/"%char.

(** [os.path.join(a, b)] *)
Definition path_join (a b : str) : str :=
  if startswith b [sep] then b
  else if (match a with [] => true | _ => false end) || endswith a [sep]
       then a ++ b
       else a ++ [sep] ++ b.

(** [s.rstrip(c)] for a one-character argument. *)
Fixpoint rstrip (s : str) (c : ascii) : str :=
  match s with
  | [] => []
  | a :: t =>
      match rstrip t c with
      | [] => if Ascii.eqb a c then [] else [a]
      | r => a :: r
      end
  end.

(** [os.path.split(p)]: the cut is after the last slash; trailing slashes
    are stripped from a head that is not made of slashes only. *)
Definition path_split (p : str) : str * str :=
  let i := match rfind p sep with Some k => S k | None => 0 end in
  let head := firstn i p in
  let tail := skipn i p in
  let head :=
    if (match head with [] => false | _ => true end)
       && negb (forallb (fun c => Ascii.eqb c sep) head)
    then rstrip head sep else head in
  (head, tail).

(** ** The external world *)

(** The object returned by [get_server_api]; the script reads [cli.token]
    and calls [cli.distribution]. *)
Record Binstar := { cli_token : option str }.

(** The JSON record of a distribution; only its truth value is used. *)
Definition dist_info := list (str * str).

(** [os.environ] *)
Definition environ := list (str * str).

Fixpoint environ_get (env : environ) (key : str) : option str :=
  match env with
  | [] => None
  | (k, v) :: rest => if str_eqb k key then Some v else environ_get rest key
  end.

(** Calls made to the collaborators, in the order they happen. *)
Inductive event :=
| EvGetServerApi (token : option str)
| EvListdir (dir : str)
| EvDistribution (owner name version distro_name : str)
| EvPrint (line : str)
| EvMkdtemp
| EvOpenW (fn : str)
| EvWrite (fn data : str)
| EvRmtree (dn : str)
| EvCheckCall (argv : list str)
| EvSleep (secs : nat).

(** The collaborators, as transitions on a world state [W]: each one
    depends on its arguments and on the world only. *)
Record Env (W : Type) := {
  croot : str;                                   (* conda_build.config.croot *)
  subdir : str;                                  (* conda_build.config.subdir *)
  get_server_api : option str -> W -> result Binstar * W;
  distribution : Binstar -> str -> str -> str -> str -> W -> result dist_info * W;
  listdir : str -> W -> result (list str) * W;   (* os.listdir *)
  mkdtemp : W -> result str * W;                 (* tempfile.mkdtemp *)
  open_w : str -> W -> result unit * W;          (* open(fn, "w") *)
  fh_write : str -> str -> W -> result unit * W; (* fh.write and close *)
  rmtree : str -> W -> result unit * W;          (* shutil.rmtree *)
  check_call : list str -> environ -> W -> result unit * W;
                                                 (* subprocess.check_call *)
  sleep : nat -> W -> W                          (* time.sleep *)
}.

(** ** The monad of the script: world state, exceptions, trace *)

Definition M (W A : Type) := W -> result A * W * list event.

Definition ret {W A} (a : A) : M W A := fun w => (Return a, w, []).

Definition raise {W A} (e : exn) : M W A := fun w => (Raise e, w, []).

Definition lift {W A} (r : result A) : M W A := fun w => (r, w, []).

Definition bind {W A B} (m : M W A) (k : A -> M W B) : M W B := fun w =>
  match m w with
  | (Return a, w1, t1) => let '(r, w2, t2) := k a w1 in (r, w2, t1 ++ t2)
  | (Raise e, w1, t1) => (Raise e, w1, t1)
  end.

(** A [try] block: the outcome of [m] as a value. *)
Definition try {W A} (m : M W A) : M W (result A) := fun w =>
  let '(r, w1, t1) := m w in (Return r, w1, t1).

(** A call to a collaborator, recorded as [ev]. *)
Definition call {W A} (ev : event) (op : W -> result A * W) : M W A := fun w =>
  let '(r, w1) := op w in (r, w1, [ev]).

Definition print {W} (line : str) : M W unit := fun w =>
  (Return tt, w, [EvPrint line]).

Declare Scope py_scope.
Delimit Scope py_scope with py.
Notation "x <- m ;; k" := (bind m (fun x => k))
  (at level 61, m at next level, right associativity) : py_scope.
Notation "m ;; k" := (bind m (fun _ => k))
  (at level 61, right associativity) : py_scope.
Local Open Scope py_scope.

(** [for x in l: body(x)] *)
Fixpoint for_each {W A} (l : list A) (body : A -> M W unit) : M W unit :=
  match l with
  | [] => ret tt
  | x :: rest => body x ;; for_each rest body
  end.

(** [[x for x in l if cond(x)]] with an effectful condition. *)
Fixpoint filterM {W A} (cond : A -> M W bool) (l : list A) : M W (list A) :=
  match l with
  | [] => ret []
  | x :: rest =>
      b <- cond x ;;
      r <- filterM cond rest ;;
      ret (if b then x :: r else r)
  end.

(** A generator-based [@contextlib.contextmanager]: [before] is the code up
    to the [yield], [after] the code behind it.  When the body of the
    [with] statement raises, the exception is thrown into the generator at
    the [yield]; a generator without a handler there lets it through and
    the code behind the [yield] does not run. *)
Definition contextmanager {W A B}
    (before : M W A) (after : A -> M W unit) (body : A -> M W B) : M W B :=
  x <- before ;;
  r <- try (body (x : A)) ;;
  match r with
  | Return v => after x ;; ret v
  | Raise e => raise e
  end.

(** ** The script *)

Section Script.
Context {W : Type}.
Variable env : Env W.
Variable os_environ : environ.

(** [get_temp_token]: the part before the [yield] ... *)
Definition get_temp_token_enter (token : option str) : M W (str * str) :=
  dn <- call EvMkdtemp (mkdtemp env) ;;
  let fn := path_join dn (lit "binstar.token") in
  call (EvOpenW fn) (open_w env fn) ;;
  match token with
  | Some t => call (EvWrite fn t) (fh_write env fn t)
  | None => raise (Exn TypeError (lit "write() argument must be str, not None"))
  end ;;
  ret (dn, fn).

(** ... and the part behind it. *)
Definition get_temp_token_exit (x : str * str) : M W unit :=
  call (EvRmtree (fst x)) (rmtree env (fst x)).

Definition get_temp_token {B} (token : option str) (body : str -> M W B) : M W B :=
  contextmanager (get_temp_token_enter token) get_temp_token_exit
                 (fun x => body (snd x)).

Definition built_distribution_already_exists
    (cli : Binstar) (name version fname owner : str) : M W bool :=
  let '(folder, basename) := path_split fname in
  let '(_, platform) := path_split folder in
  let distro_name := platform ++ lit "/" ++ basename in
  r <- try (call (EvDistribution owner name version distro_name)
                 (distribution env cli owner name version distro_name)) ;;
  match r with
  | Return dist_info => ret (match dist_info with [] => false | _ => true end)
  | Raise e =>
      if is_NotFound e then ret false   (* dist_info = {} *)
      else raise e
  end.

(** The command line of [upload]. *)
Definition upload_argv (token_fn path owner channels : str) : list str :=
  [lit "anaconda"; lit "--quiet"; lit "-t"; token_fn;
   lit "upload"; path;
   lit "--user=" ++ owner;
   lit "--channel=" ++ channels].

Definition upload (token_fn path owner channels : str) : M W unit :=
  let argv := upload_argv token_fn path owner channels in
  call (EvCheckCall argv) (check_call env argv os_environ).

(** Truth value of [token] in [if token]. *)
Definition truthy (token : option str) : bool :=
  match token with
  | Some (_ :: _) => true
  | _ => false
  end.

(** Lines 103-108: the token, with Azure's placeholder dropped. *)
Definition resolve_token : option str :=
  let token := environ_get os_environ (lit "BINSTAR_TOKEN") in
  if truthy token
     && match token with Some t => startswith t (lit "$(") | None => false end
  then None else token.

(** Lines 117-120: the comprehension calls [split_pkg] twice per kept
    path and stops at the first one that raises. *)
Fixpoint built_distributions (paths : list str) : result (list (str * str * str)) :=
  match paths with
  | [] => Return []
  | path :: rest =>
      if endswith path tar_bz2 then
        rbind (split_pkg path) (fun '(_, name, _, _) =>
        rbind (split_pkg path) (fun '(_, _, version, _) =>
        rbind (built_distributions rest) (fun r =>
        Return ((name, version, path) :: r))))
      else built_distributions rest
  end.

Definition exists_msg (owner d : str) : str :=
  lit "Distribution " ++ d ++ lit " already exists for " ++ owner.

Definition uploaded_msg (path : str) : str := lit "Uploaded " ++ path.

Definition skip_msg (owner path : str) : str :=
  lit "Distribution " ++ path ++ lit " is new for " ++ owner
  ++ lit ", but no upload is taking place because the BINSTAR_TOKEN is missing.".

(** Lines 112-130 of [upload_or_check]: enumeration, parsing and the two
    passes of existence lookups; the result is
    [(existing_distributions, new_distributions)]. *)
Definition partition_distributions (cli : Binstar) (owner : str)
  : M W (list str * list str) :=
  l1 <- call (EvListdir (path_join (croot env) (lit "noarch")))
             (listdir env (path_join (croot env) (lit "noarch"))) ;;
  l2 <- call (EvListdir (path_join (croot env) (subdir env)))
             (listdir env (path_join (croot env) (subdir env))) ;;
  let paths := map (fun p => path_join (lit "noarch") p) l1
               ++ map (fun p => path_join (subdir env) p) l2 in
  built <- lift (built_distributions paths) ;;
  existing <- filterM (fun '(name, version, path) =>
                built_distribution_already_exists cli name version path owner)
                built ;;
  let existing_distributions := map (fun '(_, _, path) => path) existing in
  for_each existing_distributions (fun d => print (exists_msg owner d)) ;;
  new <- filterM (fun '(name, version, path) =>
            b <- built_distribution_already_exists cli name version path owner ;;
            ret (negb b))
            built ;;
  ret (existing_distributions, map (fun '(_, _, path) => path) new).

(** Lines 110-130: the client, then the partition. *)
Definition classify (token : option str) (owner : str)
  : M W (Binstar * list str * list str) :=
  cli <- call (EvGetServerApi token) (get_server_api env token) ;;
  r <- partition_distributions cli owner ;;
  ret (cli, fst r, snd r).

(** Lines 133-143. *)
Definition upload_or_skip (token : option str) (cli : Binstar)
    (new_distributions : list str) (owner channel : str) : M W bool :=
  if truthy token then
    get_temp_token (cli_token cli) (fun token_fn =>
      for_each new_distributions (fun path =>
        upload token_fn path owner channel ;;
        print (uploaded_msg path))) ;;
    ret true
  else
    for_each new_distributions (fun path => print (skip_msg owner path)) ;;
    ret false.

Definition upload_or_check (recipe_dir owner channel : str) (variant : list str)
  : M W bool :=
  let token := resolve_token in
  r <- classify token owner ;;
  let '(cli, _, new_distributions) := r in
  upload_or_skip token cli new_distributions owner channel.

(** [time.sleep(secs)] *)
Definition time_sleep (secs : nat) : M W unit := fun w =>
  (Return tt, sleep env secs w, [EvSleep secs]).

Definition failed_msg (e : exn) (timeout : nat) : str :=
  lit "Failed to upload due to " ++ exn_msg e ++ lit ".  Trying again in "
  ++ str_of_nat timeout ++ lit " seconds".

Definition timeout_error : exn :=
  Exn TimeoutError (lit "Did not manage to upload package.  Failing.").

(** The [for i in ...] loop of [retry_upload_or_check] over the remaining
    values of [i]. *)
Fixpoint retry_loop (attempts : list nat)
    (recipe_dir owner channel : str) (variant : list str) : M W bool :=
  match attempts with
  | [] => raise timeout_error
  | i :: rest =>
      r <- try (upload_or_check recipe_dir owner channel variant) ;;
      match r with
      | Return res => ret res
      | Raise e =>
          if is_Exception e then
            let timeout := i ^ 2 in
            print (failed_msg e timeout) ;;
            time_sleep timeout ;;
            retry_loop rest recipe_dir owner channel variant
          else raise e
      end
  end.

Definition retry_upload_or_check (recipe_dir owner channel : str)
    (variant : list str) : M W bool :=
  retry_loop (seq 1 9) recipe_dir owner channel variant.

End Script.

(** ** Reading a run *)

Definition outcome {W A} (x : result A * W * list event) : result A := fst (fst x).
Definition final {W A} (x : result A * W * list event) : W := snd (fst x).
Definition trace {W A} (x : result A * W * list event) : list event := snd x.

Definition is_check_call (ev : event) : bool :=
  match ev with EvCheckCall _ => true | _ => false end.

Definition is_get_server_api (ev : event) : bool :=
  match ev with EvGetServerApi _ => true | _ => false end.

Definition is_rmtree (ev : event) : bool :=
  match ev with EvRmtree _ => true | _ => false end.

Definition is_mkdtemp (ev : event) : bool :=
  match ev with EvMkdtemp => true | _ => false end.

Definition is_sleep (ev : event) : bool :=
  match ev with EvSleep _ => true | _ => false end.

(** Number of calls of [upload_or_check] seen in a trace: every call opens
    with its one call of [get_server_api]. *)
Definition calls (t : list event) : nat := length (filter is_get_server_api t).

(** The arguments of the [time.sleep] calls of a trace, in order. *)
Fixpoint sleeps (t : list event) : list nat :=
  match t with
  | [] => []
  | EvSleep n :: rest => n :: sleeps rest
  | _ :: rest => sleeps rest
  end.

(** The lines printed in a trace, in order. *)
Fixpoint printed (t : list event) : list str :=
  match t with
  | [] => []
  | EvPrint l :: rest => l :: printed rest
  | _ :: rest => printed rest
  end.

(** The paths handed to [anaconda upload] in a trace, in order. *)
Fixpoint uploads (t : list event) : list str :=
  match t with
  | [] => []
  | EvCheckCall argv :: rest => nth 5 argv [] :: uploads rest
  | _ :: rest => uploads rest
  end.

(** ** A simulated world, for running the script on concrete inputs *)

Record sim := {
  remote : list str;    (* distributions present on the owner's account *)
  tmpdirs : list str;   (* temporary directories that exist *)
  slept : nat           (* seconds spent in [time.sleep] *)
}.

Definition mem (x : str) (l : list str) : bool := existsb (str_eqb x) l.

(** The API answers ... *)
Definition up : nat -> option exn := fun _ => None.

(** ... or fails with [e] on every lookup ... *)
Definition down (e : exn) : nat -> option exn := fun _ => Some e.

(** ... or fails with [e] until the script has slept [n] seconds. *)
Definition down_until (n : nat) (e : exn) : nat -> option exn :=
  fun s => if s <? n then Some e else None.

(** A build root with the given listings of [noarch] and [linux-64]; the
    [anaconda] command succeeds or fails according to [anaconda_ok]; a
    lookup fails with the error that [outage] gives for the seconds slept
    so far. *)
Definition sim_env (noarch_files plat_files : list str) (anaconda_ok : bool)
    (outage : nat -> option exn) : Env sim := {|
  croot := lit "/opt/conda-bld";
  subdir := lit "linux-64";
  get_server_api := fun tok w => (Return {| cli_token := tok |}, w);
  distribution := fun _ _ _ _ distro w =>
    match outage (slept w) with
    | Some e => (Raise e, w)
    | None =>
        if mem distro (remote w) then (Return [(lit "basename", distro)], w)
        else (Raise (Exn NotFound (lit "404")), w)
    end;
  listdir := fun dir w =>
    if str_eqb dir (lit "/opt/conda-bld/noarch") then (Return noarch_files, w)
    else if str_eqb dir (lit "/opt/conda-bld/linux-64") then (Return plat_files, w)
    else (Raise (Exn OSError (lit "No such file or directory")), w);
  mkdtemp := fun w =>
    (Return (lit "/tmp/tmp0"),
     {| remote := remote w; tmpdirs := lit "/tmp/tmp0" :: tmpdirs w; slept := slept w |});
  open_w := fun _ w => (Return tt, w);
  fh_write := fun _ _ w => (Return tt, w);
  rmtree := fun dn w =>
    (Return tt,
     {| remote := remote w;
        tmpdirs := filter (fun d => negb (str_eqb d dn)) (tmpdirs w);
        slept := slept w |});
  check_call := fun argv _ w =>
    if anaconda_ok then
      (Return tt,
       {| remote := nth 5 argv [] :: remote w; tmpdirs := tmpdirs w; slept := slept w |})
    else (Raise (Exn CalledProcessError (lit "returned non-zero exit status 1")), w);
  sleep := fun n w =>
    {| remote := remote w; tmpdirs := tmpdirs w; slept := slept w + n |}
|}.

Definition sim0 (present : list str) : sim :=
  {| remote := present; tmpdirs := []; slept := 0 |}.

Definition with_token (t : str) : environ := [(lit "BINSTAR_TOKEN", t)].

(** ** Vocabulary of the statements *)

(** The key under which [built_distribution_already_exists] looks a file
    up: the last directory of the path and the file name. *)
Definition distro_name_of (fname : str) : str :=
  snd (path_split (fst (path_split fname))) ++ lit "/" ++ snd (path_split fname).

(** Every event of every run of [m] satisfies [P]. *)
Definition emits {W A} (P : event -> Prop) (m : M W A) : Prop :=
  forall w, Forall P (trace (m w)).

(** Anything but a call of the [anaconda] command. *)
Definition no_check_call (ev : event) : Prop := is_check_call ev = false.

(** A call of [upload_or_check] emits one [get_server_api] event; all its
    other events are [quiet]. *)
Definition quiet (ev : event) : Prop :=
  is_get_server_api ev = false /\ is_sleep ev = false.

(** [attempts_fail env ... n i w]: from world [w], the calls number [i],
    [i+1], ..., [i+n-1] of [upload_or_check] each raise an [Exception], the
    world moving on through each failed call and the sleep of [i ^ 2]
    seconds that follows it; the result is the world after the last of
    these sleeps. *)
Fixpoint attempts_fail {W} (env : Env W) (os_environ : environ)
    (recipe_dir owner channel : str) (variant : list str)
    (n i : nat) (w : W) : option W :=
  match n with
  | 0 => Some w
  | S n' =>
      match upload_or_check env os_environ recipe_dir owner channel variant w with
      | (Raise e, w1, _) =>
          if is_Exception e then
            attempts_fail env os_environ recipe_dir owner channel variant
                          n' (S i) (sleep env (i ^ 2) w1)
          else None
      | (Return _, _, _) => None
      end
  end.

(** ** distribution_exists_on_channel *)

(** [os.path.basename(p)]: what follows the last slash. *)
Definition path_basename (p : str) : str :=
  let i := match rfind p sep with Some k => S k | None => 0 end in
  skipn i p.

(** [glue.join(parts)] *)
Fixpoint str_join (glue : str) (parts : list str) : str :=
  match parts with
  | [] => []
  | [x] => x
  | x :: rest => x ++ glue ++ str_join glue rest
  end.

(** [d[key]] on a dict with string keys; [None] stands for the KeyError. *)
Fixpoint dict_get {V} (d : list (str * V)) (key : str) : option V :=
  match d with
  | [] => None
  | (k, v) :: rest => if str_eqb k key then Some v else dict_get rest key
  end.

(** What [get_index] returns: file name -> record, a record being a dict
    of fields. *)
Definition channel_index := list (str * list (str * str)).

(** [get_index] and [conda_subdir] are imported from conda_build; they are
    parameters here, [get_index channel_urls prepend use_cache] being a
    transition on the world.  [binstar_cli] and [meta] are accepted and
    not used.  The function is called nowhere in the script and leaves no
    event in a trace. *)
Definition distribution_exists_on_channel {W Meta}
    (get_index : list str -> bool -> bool -> W -> result channel_index * W)
    (conda_subdir : str)
    (binstar_cli : Binstar) (meta : Meta) (fname owner channel : str)
  : W -> result bool * W := fun w =>
  let channel_url := str_join (lit "/") [owner; lit "label"; channel] in
  let fname := path_basename fname in
  match get_index [channel_url] false false w with
  | (Raise e, w1) => (Raise e, w1)
  | (Return distributions_on_channel, w1) =>
      let on_channel :=
        match dict_get distributions_on_channel fname with
        | Some record =>
            match dict_get record (lit "subdir") with
            | Some sd => str_eqb sd conda_subdir
            | None => false                       (* except KeyError *)
            end
        | None => false                           (* except KeyError *)
        end in
      (Return on_channel, w1)
  end.

(** A channel on which the files of [present] are published for
    [linux-64], for running the function on concrete inputs. *)
Definition sim_get_index (present : list str)
  : list str -> bool -> bool -> sim -> result channel_index * sim :=
  fun _ _ _ w =>
    (Return (map (fun f => (f, [(lit "name", f); (lit "subdir", lit "linux-64")])) present),
     w).

(** ** Further vocabulary *)

Definition is_print (ev : event) : bool :=
  match ev with EvPrint _ => true | _ => false end.

Definition is_distribution (ev : event) : bool :=
  match ev with EvDistribution _ _ _ _ => true | _ => false end.

(** The events of the upload loop over [paths]: one [anaconda upload] and
    one printed line per path. *)
Definition upload_events (token_fn owner channel : str) (paths : list str)
  : list event :=
  flat_map (fun path => [EvCheckCall (upload_argv token_fn path owner channel);
                         EvPrint (uploaded_msg path)]) paths.

(** What a lookup says about existence: [Some b] when the checker turns it
    into [b], [None] when the checker lets its exception through. *)
Definition lookup_answer (r : result dist_info) : option bool :=
  match r with
  | Return d => Some (match d with [] => false | _ => true end)
  | Raise e => if is_NotFound e then Some false else None
  end.

(** No client is created with a placeholder token. *)
Definition no_placeholder (ev : event) : Prop :=
  forall s, ev = EvGetServerApi (Some s) -> startswith s (lit "$(") = false.

(** The simulated world with an [anaconda] command that refuses the one
    file [bad] and accepts every other. *)
Definition sim_env_rejecting (bad : str) (noarch_files plat_files : list str)
  : Env sim :=
  let base := sim_env noarch_files plat_files true up in
  {| croot := croot base;
     subdir := subdir base;
     get_server_api := get_server_api base;
     distribution := distribution base;
     listdir := listdir base;
     mkdtemp := mkdtemp base;
     open_w := open_w base;
     fh_write := fh_write base;
     rmtree := rmtree base;
     check_call := fun argv e w =>
       if str_eqb (nth 5 argv []) bad
       then (Raise (Exn CalledProcessError (lit "returned non-zero exit status 1")), w)
       else check_call base argv e w;
     sleep := sleep base |}.

(** * Properties *)

Unset Implicit Arguments.

(** ** Strings *)

Lemma str_eqb_refl (a : str) : str_eqb a a = true.
Proof.
  induction a as [|c a IH]; simpl; [reflexivity|].
  now rewrite Ascii.eqb_refl, IH.
Qed.

Lemma str_eqb_eq (a b : str) : str_eqb a b = true <-> a = b.
Proof.
  split; [|intros ->; apply str_eqb_refl].
  revert b; induction a as [|x a IH]; intros [|y b]; simpl; try discriminate; auto.
  rewrite andb_true_iff, Ascii.eqb_eq. intros [-> H]. f_equal. now apply IH.
Qed.

Lemma endswith_iff (s suf : str) :
  endswith s suf = true <-> exists a, s = a ++ suf.
Proof.
  unfold endswith. rewrite andb_true_iff, Nat.leb_le, str_eqb_eq. split.
  - intros [_ H]. exists (firstn (length s - length suf) s).
    rewrite <- (firstn_skipn (length s - length suf) s) at 1. now rewrite H.
  - intros [a ->]. rewrite length_app. split; [lia|].
    replace (length a + length suf - length suf) with (length a + 0) by lia.
    rewrite skipn_app, Nat.add_0_r, skipn_all.
    replace (length a - length a) with 0 by lia. reflexivity.
Qed.

Lemma drop_last_app (a suf : str) : drop_last (length suf) (a ++ suf) = a.
Proof.
  unfold drop_last. rewrite length_app.
  replace (length a + length suf - length suf) with (length a + 0) by lia.
  rewrite firstn_app_2. simpl. apply app_nil_r.
Qed.

Lemma neqb_of_notin (c x : ascii) (s : str) : ~ In c (x :: s) -> Ascii.eqb x c = false.
Proof.
  intros H. apply Ascii.eqb_neq. intros ->. apply H. now left.
Qed.

Lemma split_no_sep (s : str) (c : ascii) : ~ In c s -> split s c = [s].
Proof.
  induction s as [|x s IH]; intros H; simpl; [reflexivity|].
  rewrite (neqb_of_notin _ _ _ H), IH; [reflexivity|].
  intros Hin. apply H. now right.
Qed.

Lemma split_one_sep (a b : str) (c : ascii) :
  ~ In c a -> ~ In c b -> split (a ++ c :: b) c = [a; b].
Proof.
  intros Ha Hb. induction a as [|x a IH]; simpl.
  - now rewrite Ascii.eqb_refl, split_no_sep.
  - rewrite (neqb_of_notin _ _ _ Ha), IH; [reflexivity|].
    intros Hin. apply Ha. now right.
Qed.

Lemma rfind_no_sep (s : str) (c : ascii) : ~ In c s -> rfind s c = None.
Proof.
  induction s as [|x s IH]; intros H; simpl; [reflexivity|].
  rewrite IH, (neqb_of_notin _ _ _ H); [reflexivity|].
  intros Hin. apply H. now right.
Qed.

Lemma rfind_last (a b : str) (c : ascii) :
  ~ In c b -> rfind (a ++ c :: b) c = Some (length a).
Proof.
  intros Hb. induction a as [|x a IH]; simpl.
  - now rewrite rfind_no_sep, Ascii.eqb_refl.
  - now rewrite IH.
Qed.

Lemma rsplit1_last (a b : str) (c : ascii) :
  ~ In c b -> rsplit1 (a ++ c :: b) c = [a; b].
Proof.
  intros Hb. unfold rsplit1. rewrite rfind_last by assumption.
  f_equal; [|f_equal].
  - rewrite <- (Nat.add_0_r (length a)), firstn_app_2. simpl. apply app_nil_r.
  - replace (S (length a)) with (length (a ++ [c])) by (rewrite length_app; simpl; lia).
    replace (a ++ c :: b) with ((a ++ [c]) ++ b) by (rewrite <- app_assoc; reflexivity).
    rewrite skipn_app, skipn_all, Nat.sub_diag. reflexivity.
Qed.

Lemma rsplit1_no_sep (s : str) (c : ascii) : ~ In c s -> rsplit1 s c = [s].
Proof.
  intros H. unfold rsplit1. now rewrite rfind_no_sep.
Qed.

(** ** The artifact name parser *)

Example split_pkg_hyphenated_name :
  split_pkg (lit "linux-64/my-pkg-1.0-py_0.tar.bz2")
  = Return (lit "linux-64", lit "my-pkg", lit "1.0", lit "py_0").
Proof. reflexivity. Qed.

Example split_pkg_no_hyphen :
  split_pkg (lit "noarch/foo.tar.bz2")
  = Raise (Exn ValueError (lit "not enough values to unpack (expected 2, got 1)")).
Proof. reflexivity. Qed.

Example split_pkg_two_slashes :
  split_pkg (lit "a/b/foo-1-0.tar.bz2")
  = Raise (Exn ValueError (lit "too many values to unpack (expected 2)")).
Proof. reflexivity. Qed.

(** C4.  A path [platform/name-version-build.tar.bz2] with a single slash
    and no hyphen in [version] and [build] is parsed into exactly
    [(platform, name, version, build)], whatever hyphens [name] holds; a
    path that does not end in [.tar.bz2] raises the RuntimeError of
    [split_pkg]. *)
Theorem split_pkg_spec :
  (forall plat name ver build : str,
      ~ In "/"%char plat -> ~ In "/"%char name ->
      ~ In "/"%char ver -> ~ In "/"%char build ->
      ~ In "-"%char ver -> ~ In "-"%char build ->
      split_pkg (plat ++ lit "/" ++ name ++ lit "-" ++ ver ++ lit "-" ++ build
                 ++ lit ".tar.bz2")
      = Return (plat, name, ver, build))
  /\ (forall pkg : str,
      (forall a, pkg <> a ++ lit ".tar.bz2") ->
      split_pkg pkg
      = Raise (Exn RuntimeError (lit "Can only process packages that end in .tar.bz2"))).
Proof.
  split.
  - intros plat name ver build Hp Hn Hv Hb Hv' Hb'.
    unfold split_pkg.
    assert (E : endswith (plat ++ lit "/" ++ name ++ lit "-" ++ ver ++ lit "-"
                          ++ build ++ lit ".tar.bz2") tar_bz2 = true).
    { apply endswith_iff.
      exists (plat ++ lit "/" ++ name ++ lit "-" ++ ver ++ lit "-" ++ build).
      unfold tar_bz2. now rewrite <- !app_assoc. }
    rewrite E. cbn [negb].
    replace (plat ++ lit "/" ++ name ++ lit "-" ++ ver ++ lit "-" ++ build
             ++ lit ".tar.bz2")
      with ((plat ++ lit "/" ++ name ++ lit "-" ++ ver ++ lit "-" ++ build)
            ++ lit ".tar.bz2") by (now rewrite <- !app_assoc).
    change 8 with (length (lit ".tar.bz2")). rewrite drop_last_app.
    change (lit "/") with ["/"%char]. change (lit "-") with ["-"%char].
    cbn [app].
    rewrite split_one_sep; [cbn [unpack2 rbind]| assumption |].
    + replace (name ++ "-"%char :: ver ++ "-"%char :: build)
        with ((name ++ "-"%char :: ver) ++ "-"%char :: build)
        by (now rewrite <- app_assoc).
      rewrite rsplit1_last by assumption. cbn [unpack2 rbind].
      rewrite rsplit1_last by assumption. reflexivity.
    + intros H. apply in_app_or in H. destruct H as [H|[H|H]];
        [tauto | discriminate |].
      apply in_app_or in H. destruct H as [H|[H|H]];
        [tauto | discriminate | tauto].
  - intros pkg H. unfold split_pkg.
    destruct (endswith pkg tar_bz2) eqn:E; [|reflexivity].
    apply endswith_iff in E. destruct E as [a Ha]. now apply H in Ha.
Qed.

(** An instance of C4: a hyphenated name, and a [.zip] file. *)
Lemma split_pkg_spec_witness :
  split_pkg (lit "linux-64" ++ lit "/" ++ lit "my-pkg" ++ lit "-" ++ lit "1.0"
             ++ lit "-" ++ lit "py_0" ++ lit ".tar.bz2")
  = Return (lit "linux-64", lit "my-pkg", lit "1.0", lit "py_0")
  /\ split_pkg (lit "linux-64/foo-1.0-0.zip")
     = Raise (Exn RuntimeError (lit "Can only process packages that end in .tar.bz2")).
Proof.
  destruct split_pkg_spec as [H1 H2]. split.
  - apply H1; simpl; intuition discriminate.
  - apply H2. intros a Ha.
    assert (E : endswith (lit "linux-64/foo-1.0-0.zip") (lit ".tar.bz2") = true)
      by (apply endswith_iff; now exists a).
    vm_compute in E. discriminate E.
Defined.

(** ** The monad *)

Lemma bind_return {W A B} (m : M W A) (k : A -> M W B) w a w1 t1 :
  m w = (Return a, w1, t1) ->
  bind m k w = (outcome (k a w1), final (k a w1), t1 ++ trace (k a w1)).
Proof.
  intros H. unfold bind. rewrite H. now destruct (k a w1) as [[r w2] t2].
Qed.

Lemma bind_raise {W A B} (m : M W A) (k : A -> M W B) w e w1 t1 :
  m w = (Raise e, w1, t1) -> bind m k w = (Raise e, w1, t1).
Proof.
  intros H. unfold bind. now rewrite H.
Qed.

Lemma run_eta {W A} (x : result A * W * list event) :
  x = (outcome x, final x, trace x).
Proof. now destruct x as [[r w] t]. Qed.

(** ** The existence checker *)

Example distro_name_of_artifact :
  distro_name_of (lit "linux-64/foo-1.0-0.tar.bz2") = lit "linux-64/foo-1.0-0.tar.bz2".
Proof. reflexivity. Qed.

Example distro_name_of_absolute :
  distro_name_of (lit "/opt/conda-bld/noarch/foo-1.0-0.tar.bz2") = lit "noarch/foo-1.0-0.tar.bz2".
Proof. reflexivity. Qed.

(** C5.  [built_distribution_already_exists] makes exactly one lookup, for
    (owner, name, version, platform/filename).  A NotFound answer gives
    [False]; any other exception of the lookup leaves the function as it
    is, with no second lookup; a record that is returned gives its truth
    value. *)
Theorem built_distribution_already_exists_spec :
  forall (W : Type) (env : Env W) (cli : Binstar) (name version fname owner : str) (w : W),
    let lookup := distribution env cli owner name version (distro_name_of fname) w in
    let run := built_distribution_already_exists env cli name version fname owner w in
    trace run = [EvDistribution owner name version (distro_name_of fname)]
    /\ final run = snd lookup
    /\ (forall e, fst lookup = Raise e -> is_NotFound e = true ->
                  outcome run = Return false)
    /\ (forall e, fst lookup = Raise e -> is_NotFound e = false ->
                  outcome run = Raise e)
    /\ (forall d, fst lookup = Return d ->
                  outcome run = Return (match d with [] => false | _ => true end)).
Proof.
  intros W env cli name version fname owner w lookup run.
  subst lookup run. unfold built_distribution_already_exists, distro_name_of.
  destruct (path_split fname) as [folder basename]. cbn [fst snd].
  destruct (path_split folder) as [f' platform]. cbn [fst snd].
  unfold bind, try, call.
  destruct (distribution env cli owner name version (platform ++ lit "/" ++ basename) w)
    as [[d|e] w1]; cbn [fst snd].
  - unfold ret, outcome, final, trace; cbn [fst snd app].
    split; [reflexivity|]. split; [reflexivity|].
    split; [discriminate|]. split; [discriminate|].
    now intros d' [= <-].
  - destruct (is_NotFound e) eqn:E; unfold ret, raise, outcome, final, trace;
      cbn [fst snd app];
      (split; [reflexivity|]); (split; [reflexivity|]);
      (split; [intros e' [= <-]; congruence|]);
      (split; [intros e' [= <-]; congruence|]); discriminate.
Qed.

(** An instance of C5 in the simulated world: a file that is not on the
    account, a lookup that fails with a connection error, and a file that
    is present. *)
Lemma built_distribution_already_exists_spec_witness :
  outcome (built_distribution_already_exists (sim_env [] [] true up)
             {| cli_token := None |} (lit "bar") (lit "2.0")
             (lit "linux-64/bar-2.0-0.tar.bz2") (lit "me") (sim0 []))
  = Return false
  /\ outcome (built_distribution_already_exists
                (sim_env [] [] true (down (Exn OSError (lit "connection reset"))))
                {| cli_token := None |} (lit "bar") (lit "2.0")
                (lit "linux-64/bar-2.0-0.tar.bz2") (lit "me") (sim0 []))
     = Raise (Exn OSError (lit "connection reset"))
  /\ outcome (built_distribution_already_exists (sim_env [] [] true up)
                {| cli_token := None |} (lit "bar") (lit "2.0")
                (lit "linux-64/bar-2.0-0.tar.bz2") (lit "me")
                (sim0 [lit "linux-64/bar-2.0-0.tar.bz2"]))
     = Return true.
Proof.
  split; [|split].
  - apply (built_distribution_already_exists_spec sim (sim_env [] [] true up)
             {| cli_token := None |} (lit "bar") (lit "2.0")
             (lit "linux-64/bar-2.0-0.tar.bz2") (lit "me") (sim0 []))
      with (e := Exn NotFound (lit "404")); reflexivity.
  - apply (built_distribution_already_exists_spec sim
             (sim_env [] [] true (down (Exn OSError (lit "connection reset"))))
             {| cli_token := None |} (lit "bar") (lit "2.0")
             (lit "linux-64/bar-2.0-0.tar.bz2") (lit "me") (sim0 []));
      reflexivity.
  - apply (built_distribution_already_exists_spec sim (sim_env [] [] true up)
             {| cli_token := None |} (lit "bar") (lit "2.0")
             (lit "linux-64/bar-2.0-0.tar.bz2") (lit "me")
             (sim0 [lit "linux-64/bar-2.0-0.tar.bz2"]))
      with (d := [(lit "basename", lit "linux-64/bar-2.0-0.tar.bz2")]); reflexivity.
Defined.

(** ** The scoped credential file *)

Lemma get_temp_token_body_returns {W B} (env : Env W) (t : str) (body : str -> M W B)
    w dn w1 w2 w3 v w4 tb :
  mkdtemp env w = (Return dn, w1) ->
  open_w env (path_join dn (lit "binstar.token")) w1 = (Return tt, w2) ->
  fh_write env (path_join dn (lit "binstar.token")) t w2 = (Return tt, w3) ->
  body (path_join dn (lit "binstar.token")) w3 = (Return v, w4, tb) ->
  get_temp_token env (Some t) body w
  = (match fst (rmtree env dn w4) with Return _ => Return v | Raise e => Raise e end,
     snd (rmtree env dn w4),
     [EvMkdtemp; EvOpenW (path_join dn (lit "binstar.token"));
      EvWrite (path_join dn (lit "binstar.token")) t] ++ tb ++ [EvRmtree dn]).
Proof.
  intros H1 H2 H3 H4.
  unfold get_temp_token, contextmanager, get_temp_token_enter, get_temp_token_exit,
    bind, try, call, ret.
  rewrite H1, H2, H3. cbn [fst snd]. rewrite H4.
  destruct (rmtree env dn w4) as [[[]|e] w5]; cbn [fst snd app];
    now rewrite ?app_nil_r.
Qed.

Lemma get_temp_token_body_raises {W B} (env : Env W) (t : str) (body : str -> M W B)
    w dn w1 w2 w3 e w4 tb :
  mkdtemp env w = (Return dn, w1) ->
  open_w env (path_join dn (lit "binstar.token")) w1 = (Return tt, w2) ->
  fh_write env (path_join dn (lit "binstar.token")) t w2 = (Return tt, w3) ->
  body (path_join dn (lit "binstar.token")) w3 = (Raise e, w4, tb) ->
  get_temp_token env (Some t) body w
  = (Raise e, w4,
     [EvMkdtemp; EvOpenW (path_join dn (lit "binstar.token"));
      EvWrite (path_join dn (lit "binstar.token")) t] ++ tb).
Proof.
  intros H1 H2 H3 H4.
  unfold get_temp_token, contextmanager, get_temp_token_enter, get_temp_token_exit,
    bind, try, call, ret, raise.
  rewrite H1, H2, H3. cbn [fst snd]. rewrite H4. cbn [app].
  now rewrite ?app_nil_r.
Qed.

(** The first upload of a batch fails: the exception leaves the batch and
    the trace ends with the failed [check_call], with no [rmtree] behind
    it. *)
Lemma upload_or_skip_first_upload_raises {W} (env : Env W) os_environ token cli
    (t path : str) (rest : list str) (owner channel : str) w dn w1 w2 w3 e w4 :
  truthy token = true ->
  cli_token cli = Some t ->
  mkdtemp env w = (Return dn, w1) ->
  open_w env (path_join dn (lit "binstar.token")) w1 = (Return tt, w2) ->
  fh_write env (path_join dn (lit "binstar.token")) t w2 = (Return tt, w3) ->
  check_call env (upload_argv (path_join dn (lit "binstar.token")) path owner channel)
             os_environ w3 = (Raise e, w4) ->
  let run := upload_or_skip env os_environ token cli (path :: rest) owner channel w in
  outcome run = Raise e /\ final run = w4 /\ filter is_rmtree (trace run) = [].
Proof.
  intros Ht Hc H1 H2 H3 H4 run. subst run. unfold upload_or_skip. rewrite Ht, Hc.
  rewrite (bind_raise _ _ w e w4
             ([EvMkdtemp; EvOpenW (path_join dn (lit "binstar.token"));
               EvWrite (path_join dn (lit "binstar.token")) t]
              ++ [EvCheckCall (upload_argv (path_join dn (lit "binstar.token")) path
                                           owner channel)])).
  - now repeat split.
  - apply (get_temp_token_body_raises env t _ w dn w1 w2 w3 e w4 _ H1 H2 H3).
    cbn [for_each]. unfold upload, bind, call. cbv beta zeta. now rewrite H4.
Qed.

(** C1, on the path the code misses.  One new artifact, a token, and an
    [anaconda upload] that exits with a non-zero status: the batch raises
    CalledProcessError, [mkdtemp] was called once, [rmtree] was never
    called, and the directory is still there when the batch is left. *)
Theorem temp_token_dir_left_behind_on_upload_error :
  let run := upload_or_check (sim_env [] [lit "bar-2.0-0.tar.bz2"] false up)
               (with_token (lit "secret")) (lit "recipe") (lit "me") (lit "main") []
               (sim0 []) in
  outcome run = Raise (Exn CalledProcessError (lit "returned non-zero exit status 1"))
  /\ length (filter is_mkdtemp (trace run)) = 1
  /\ filter is_rmtree (trace run) = []
  /\ tmpdirs (final run) = [lit "/tmp/tmp0"].
Proof.
  vm_compute. repeat split; reflexivity.
Qed.

(** The path the code handles: when every upload succeeds the directory is
    removed before the batch returns. *)
Example temp_token_dir_removed_on_success :
  let run := upload_or_check (sim_env [] [lit "bar-2.0-0.tar.bz2"] true up)
               (with_token (lit "secret")) (lit "recipe") (lit "me") (lit "main") []
               (sim0 []) in
  outcome run = Return true
  /\ filter is_rmtree (trace run) = [EvRmtree (lit "/tmp/tmp0")]
  /\ tmpdirs (final run) = [].
Proof.
  vm_compute. repeat split; reflexivity.
Qed.

(** ** What a computation can emit *)

Section Emits.
Context {W : Type} (P : event -> Prop).

Lemma emits_ret {A} (a : A) : emits P (ret (W := W) a).
Proof. intros w. constructor. Qed.

Lemma emits_raise {A} (e : exn) : emits P (raise (W := W) (A := A) e).
Proof. intros w. constructor. Qed.

Lemma emits_lift {A} (r : result A) : emits P (lift (W := W) r).
Proof. intros w. constructor. Qed.

Lemma emits_call {A} (ev : event) (op : W -> result A * W) :
  P ev -> emits P (call ev op).
Proof.
  intros H w. unfold call, trace. destruct (op w). cbn. now repeat constructor.
Qed.

Lemma emits_print (line : str) : P (EvPrint line) -> emits P (print (W := W) line).
Proof. intros H w. cbn. now repeat constructor. Qed.

Lemma emits_try {A} (m : M W A) : emits P m -> emits P (try m).
Proof.
  intros H w. specialize (H w). unfold try, trace in *.
  now destruct (m w) as [[r w1] t1].
Qed.

Lemma emits_bind {A B} (m : M W A) (k : A -> M W B) :
  emits P m -> (forall a, emits P (k a)) -> emits P (bind m k).
Proof.
  intros Hm Hk w. specialize (Hm w). unfold bind, trace in *.
  destruct (m w) as [[[a|e] w1] t1]; cbn in *; [|assumption].
  specialize (Hk a w1). unfold trace in Hk.
  destruct (k a w1) as [[r w2] t2]. cbn in *. apply Forall_app. now split.
Qed.

Lemma emits_for_each {A} (l : list A) (body : A -> M W unit) :
  (forall x, emits P (body x)) -> emits P (for_each l body).
Proof.
  intros H. induction l as [|x l IH]; cbn [for_each].
  - apply emits_ret.
  - apply emits_bind; auto.
Qed.

Lemma emits_filterM {A} (cond : A -> M W bool) (l : list A) :
  (forall x, emits P (cond x)) -> emits P (filterM cond l).
Proof.
  intros H. induction l as [|x l IH]; cbn [filterM].
  - apply emits_ret.
  - apply emits_bind; [apply H|]. intros b.
    apply emits_bind; [apply IH|]. intros r. apply emits_ret.
Qed.

Lemma emits_contextmanager {A B} (before : M W A) (after : A -> M W unit)
    (body : A -> M W B) :
  emits P before -> (forall x, emits P (after x)) -> (forall x, emits P (body x)) ->
  emits P (contextmanager before after body).
Proof.
  intros H1 H2 H3. unfold contextmanager.
  apply emits_bind; [assumption|]. intros x.
  apply emits_bind; [apply emits_try, H3|]. intros [v|e].
  - apply emits_bind; [apply H2|]. intros _. apply emits_ret.
  - apply emits_raise.
Qed.

Variable env : Env W.

Lemma emits_built_distribution_already_exists cli name version fname owner :
  (forall o n v d, P (EvDistribution o n v d)) ->
  emits P (built_distribution_already_exists env cli name version fname owner).
Proof.
  intros H. unfold built_distribution_already_exists.
  destruct (path_split fname) as [folder basename].
  destruct (path_split folder) as [f' platform].
  apply emits_bind; [apply emits_try, emits_call, H|].
  intros [d|e]; [apply emits_ret|].
  destruct (is_NotFound e); [apply emits_ret | apply emits_raise].
Qed.

Lemma emits_partition_distributions cli owner :
  (forall d, P (EvListdir d)) ->
  (forall o n v d, P (EvDistribution o n v d)) ->
  (forall l, P (EvPrint l)) ->
  emits P (partition_distributions env cli owner).
Proof.
  intros Hl Hd Hp. unfold partition_distributions.
  apply emits_bind; [apply emits_call, Hl|]. intros l1.
  apply emits_bind; [apply emits_call, Hl|]. intros l2.
  apply emits_bind; [apply emits_lift|]. intros built.
  apply emits_bind.
  { apply emits_filterM. intros [[n v] p].
    now apply emits_built_distribution_already_exists. }
  intros existing.
  apply emits_bind.
  { apply emits_for_each. intros d. apply emits_print, Hp. }
  intros _.
  apply emits_bind.
  { apply emits_filterM. intros [[n v] p].
    apply emits_bind; [now apply emits_built_distribution_already_exists|].
    intros b. apply emits_ret. }
  intros new. apply emits_ret.
Qed.

Lemma emits_classify token owner :
  P (EvGetServerApi token) ->
  (forall d, P (EvListdir d)) ->
  (forall o n v d, P (EvDistribution o n v d)) ->
  (forall l, P (EvPrint l)) ->
  emits P (classify env token owner).
Proof.
  intros Ha Hl Hd Hp. unfold classify.
  apply emits_bind; [apply emits_call, Ha|]. intros cli.
  apply emits_bind; [now apply emits_partition_distributions|].
  intros r. apply emits_ret.
Qed.

Lemma emits_get_temp_token {B} token (body : str -> M W B) :
  P EvMkdtemp -> (forall fn, P (EvOpenW fn)) -> (forall fn d, P (EvWrite fn d)) ->
  (forall dn, P (EvRmtree dn)) -> (forall fn, emits P (body fn)) ->
  emits P (get_temp_token env token body).
Proof.
  intros Hm Ho Hw Hr Hb. unfold get_temp_token.
  apply emits_contextmanager.
  - unfold get_temp_token_enter.
    apply emits_bind; [apply emits_call, Hm|]. intros dn.
    apply emits_bind; [apply emits_call, Ho|]. intros _.
    apply emits_bind; [|intros _; apply emits_ret].
    destruct token; [apply emits_call, Hw | apply emits_raise].
  - intros x. apply emits_call, Hr.
  - intros x. apply Hb.
Qed.

Lemma emits_upload_or_skip os_environ token cli new owner channel :
  (forall l, P (EvPrint l)) ->
  (truthy token = true ->
   P EvMkdtemp /\ (forall fn, P (EvOpenW fn)) /\ (forall fn d, P (EvWrite fn d))
   /\ (forall dn, P (EvRmtree dn)) /\ (forall argv, P (EvCheckCall argv))) ->
  emits P (upload_or_skip env os_environ token cli new owner channel).
Proof.
  intros Hp Ht. unfold upload_or_skip. destruct (truthy token).
  - destruct (Ht eq_refl) as (Hm & Ho & Hw & Hr & Hc).
    apply emits_bind; [|intros _; apply emits_ret].
    apply emits_get_temp_token; try assumption.
    intros fn. apply emits_for_each. intros path.
    apply emits_bind; [apply emits_call, Hc|]. intros _. apply emits_print, Hp.
  - apply emits_bind; [|intros _; apply emits_ret].
    apply emits_for_each. intros path. apply emits_print, Hp.
Qed.

End Emits.

(** ** The batch without a usable credential *)

Lemma for_each_print {W A} (f : A -> str) (l : list A) (w : W) :
  for_each l (fun x => print (f x)) w = (Return tt, w, map (fun x => EvPrint (f x)) l).
Proof.
  induction l as [|x l IH]; [reflexivity|].
  cbn [for_each map]. unfold bind. cbn [print]. now rewrite IH.
Qed.

Lemma printed_app (t1 t2 : list event) : printed (t1 ++ t2) = printed t1 ++ printed t2.
Proof.
  induction t1 as [|ev t1 IH]; [reflexivity|].
  destruct ev; cbn [app printed]; now rewrite IH.
Qed.

Lemma printed_map_print {A} (f : A -> str) (l : list A) :
  printed (map (fun x => EvPrint (f x)) l) = map f l.
Proof.
  induction l as [|x l IH]; [reflexivity|]. cbn [map printed]. now f_equal.
Qed.

Lemma truthy_resolve_token (os_environ : environ) :
  truthy (resolve_token os_environ) = true
  <-> exists t, environ_get os_environ (lit "BINSTAR_TOKEN") = Some t
                /\ t <> [] /\ startswith t (lit "$(") = false.
Proof.
  unfold resolve_token.
  destruct (environ_get os_environ (lit "BINSTAR_TOKEN")) as [[|c t]|]; cbn [truthy andb].
  - split; [discriminate|]. intros (t & [= <-] & H & _). now destruct H.
  - destruct (startswith (c :: t) (lit "$(")) eqn:E; cbn [truthy]; split.
    + discriminate.
    + intros (t' & [= <-] & _ & H). congruence.
    + intros _. exists (c :: t). repeat split; [discriminate | assumption].
    + reflexivity.
  - split; [discriminate|]. now intros (t & H & _).
Qed.

Lemma resolve_token_placeholder (os_environ : environ) (s : str) :
  environ_get os_environ (lit "BINSTAR_TOKEN") = Some s ->
  startswith s (lit "$(") = true ->
  resolve_token os_environ = None.
Proof.
  intros H1 H2. unfold resolve_token. rewrite H1, H2.
  destruct s; [discriminate H2 | reflexivity].
Qed.

Lemma resolve_token_unset (os_environ : environ) :
  environ_get os_environ (lit "BINSTAR_TOKEN") = None ->
  resolve_token os_environ = None.
Proof.
  intros H. unfold resolve_token. now rewrite H.
Qed.

Lemma upload_or_skip_no_token {W} (env : Env W) os_environ token cli new owner channel w :
  truthy token = false ->
  upload_or_skip env os_environ token cli new owner channel w
  = (Return false, w, map (fun path => EvPrint (skip_msg owner path)) new).
Proof.
  intros H. unfold upload_or_skip. rewrite H.
  unfold bind. rewrite for_each_print. cbn [ret]. now rewrite app_nil_r.
Qed.

Lemma upload_or_check_no_token_emits {W} (env : Env W) os_environ recipe_dir owner
    channel variant :
  truthy (resolve_token os_environ) = false ->
  emits no_check_call (upload_or_check env os_environ recipe_dir owner channel variant).
Proof.
  intros H. unfold upload_or_check.
  apply emits_bind.
  - apply emits_classify; intros; reflexivity.
  - intros [[cli existing] new].
    apply emits_upload_or_skip; [intros; reflexivity|].
    intros H'. congruence.
Qed.

(** C6.  Without a usable token no [anaconda upload] is ever invoked; and
    once enumeration and the existence lookups have produced the list of
    new artifacts, the batch prints one skip line per new artifact, in
    order, does nothing else, and returns [False] without raising. *)
Theorem no_token_check_only :
  forall (W : Type) (env : Env W) (os_environ : environ)
         (recipe_dir owner channel : str) (variant : list str) (w : W),
    truthy (resolve_token os_environ) = false ->
    let run := upload_or_check env os_environ recipe_dir owner channel variant w in
    let c := classify env (resolve_token os_environ) owner w in
    Forall (fun ev => is_check_call ev = false) (trace run)
    /\ (forall cli existing new,
          outcome c = Return (cli, existing, new) ->
          outcome run = Return false
          /\ final run = final c
          /\ trace run = trace c ++ map (fun path => EvPrint (skip_msg owner path)) new
          /\ printed (trace run) = printed (trace c) ++ map (skip_msg owner) new).
Proof.
  intros W env os_environ recipe_dir owner channel variant w H run c. split.
  - now apply upload_or_check_no_token_emits.
  - intros cli existing new Hc. subst run. unfold upload_or_check.
    assert (E : c = (Return (cli, existing, new), final c, trace c)).
    { rewrite (run_eta c) at 1. now rewrite Hc. }
    subst c. rewrite (bind_return _ _ _ _ _ _ E).
    rewrite upload_or_skip_no_token by assumption.
    unfold outcome, final, trace. cbn [fst snd]. repeat split.
    now rewrite printed_app, printed_map_print.
Qed.

(** An instance of C6: no token at all, one artifact already on the
    account and one new. *)
Lemma no_token_check_only_witness :
  let env := sim_env [] [lit "foo-1.0-0.tar.bz2"; lit "bar-2.0-0.tar.bz2"] true up in
  let run := upload_or_check env [] (lit "recipe") (lit "me") (lit "main") []
               (sim0 [lit "linux-64/foo-1.0-0.tar.bz2"]) in
  Forall (fun ev => is_check_call ev = false) (trace run)
  /\ outcome run = Return false
  /\ printed (trace run)
     = [exists_msg (lit "me") (lit "linux-64/foo-1.0-0.tar.bz2");
        skip_msg (lit "me") (lit "linux-64/bar-2.0-0.tar.bz2")].
Proof.
  intros env run.
  destruct (no_token_check_only sim env [] (lit "recipe") (lit "me") (lit "main") []
              (sim0 [lit "linux-64/foo-1.0-0.tar.bz2"]) eq_refl) as [H1 H2].
  specialize (H2 {| cli_token := None |} [lit "linux-64/foo-1.0-0.tar.bz2"]
                [lit "linux-64/bar-2.0-0.tar.bz2"] eq_refl).
  destruct H2 as (H2 & _ & _ & H3).
  split; [exact H1|]. split; [exact H2|].
  subst run env. rewrite H3. reflexivity.
Defined.

(** ** The result of the batch *)

Lemma upload_or_check_returns {W} (env : Env W) os_environ recipe_dir owner channel
    variant w b :
  outcome (upload_or_check env os_environ recipe_dir owner channel variant w) = Return b ->
  b = truthy (resolve_token os_environ).
Proof.
  unfold upload_or_check, outcome, bind at 1.
  destruct (classify env (resolve_token os_environ) owner w)
    as [[[[[cli existing] new]|e] w1] t1]; cbn [fst]; [|discriminate].
  unfold upload_or_skip.
  destruct (truthy (resolve_token os_environ)); unfold bind, ret.
  - destruct (get_temp_token _ _ _ w1) as [[[u|e] w2] t2]; cbn [fst];
      [now intros [= <-] | discriminate].
  - destruct (for_each _ _ w1) as [[[u|e] w2] t2]; cbn [fst];
      [now intros [= <-] | discriminate].
Qed.

(** C10.  A batch that returns, returns [True] exactly when the
    environment holds a non-empty BINSTAR_TOKEN that does not start with
    the placeholder marker.  It returns [True] with a token and no
    artifact at all (nothing is uploaded), and [False] without a token and
    no artifact at all (nothing is printed). *)
Theorem upload_or_check_result_is_token :
  (forall (W : Type) (env : Env W) (os_environ : environ)
          (recipe_dir owner channel : str) (variant : list str) (w : W) (b : bool),
      outcome (upload_or_check env os_environ recipe_dir owner channel variant w)
      = Return b ->
      (b = true <->
       exists t, environ_get os_environ (lit "BINSTAR_TOKEN") = Some t
                 /\ t <> [] /\ startswith t (lit "$(") = false))
  /\ (let run := upload_or_check (sim_env [] [] true up) (with_token (lit "secret"))
                   (lit "recipe") (lit "me") (lit "main") [] (sim0 []) in
      outcome run = Return true /\ uploads (trace run) = [])
  /\ (let run := upload_or_check (sim_env [] [] true up) []
                   (lit "recipe") (lit "me") (lit "main") [] (sim0 []) in
      outcome run = Return false /\ printed (trace run) = []).
Proof.
  split; [|split; vm_compute; split; reflexivity].
  intros W env os_environ recipe_dir owner channel variant w b H.
  apply upload_or_check_returns in H. subst b.
  apply truthy_resolve_token.
Qed.

(** An instance of C10: everything is on the account already, the token is
    set, the batch returns [True]. *)
Lemma upload_or_check_result_is_token_witness :
  outcome (upload_or_check (sim_env [] [lit "foo-1.0-0.tar.bz2"] true up)
             (with_token (lit "secret")) (lit "recipe") (lit "me") (lit "main") []
             (sim0 [lit "linux-64/foo-1.0-0.tar.bz2"]))
  = Return true
  /\ (true = true <->
      exists t, environ_get (with_token (lit "secret")) (lit "BINSTAR_TOKEN") = Some t
                /\ t <> [] /\ startswith t (lit "$(") = false).
Proof.
  split; [reflexivity|].
  destruct upload_or_check_result_is_token as [H _].
  apply (H sim (sim_env [] [lit "foo-1.0-0.tar.bz2"] true up) (with_token (lit "secret"))
           (lit "recipe") (lit "me") (lit "main") []
           (sim0 [lit "linux-64/foo-1.0-0.tar.bz2"]) true).
  reflexivity.
Defined.

(** ** The retry wrapper *)

Lemma retry_loop_cons {W} (env : Env W) os_environ i rest recipe_dir owner channel
    variant w :
  retry_loop env os_environ (i :: rest) recipe_dir owner channel variant w
  = match upload_or_check env os_environ recipe_dir owner channel variant w with
    | (Return res, w1, t1) => (Return res, w1, t1)
    | (Raise e, w1, t1) =>
        if is_Exception e then
          let r := retry_loop env os_environ rest recipe_dir owner channel variant
                     (sleep env (i ^ 2) w1) in
          (outcome r, final r,
           t1 ++ EvPrint (failed_msg e (i ^ 2)) :: EvSleep (i ^ 2) :: trace r)
        else (Raise e, w1, t1)
    end.
Proof.
  cbn [retry_loop]. unfold bind at 1, try.
  destruct (upload_or_check env os_environ recipe_dir owner channel variant w)
    as [[[res|e] w1] t1].
  - cbn [ret]. now rewrite app_nil_r.
  - destruct (is_Exception e).
    + unfold bind, print, time_sleep.
      destruct (retry_loop env os_environ rest recipe_dir owner channel variant
                  (sleep env (i ^ 2) w1)) as [[r w2] t2].
      reflexivity.
    + cbn [raise]. now rewrite app_nil_r.
Qed.

Lemma calls_app (t1 t2 : list event) : calls (t1 ++ t2) = calls t1 + calls t2.
Proof.
  unfold calls. now rewrite filter_app, length_app.
Qed.

Lemma sleeps_app (t1 t2 : list event) : sleeps (t1 ++ t2) = sleeps t1 ++ sleeps t2.
Proof.
  induction t1 as [|ev t1 IH]; [reflexivity|].
  destruct ev; cbn [app sleeps]; now rewrite IH.
Qed.

Lemma quiet_trace (t : list event) : Forall quiet t -> calls t = 0 /\ sleeps t = [].
Proof.
  induction 1 as [|ev t [Ha Hs] _ [IH1 IH2]]; [now split|].
  unfold calls in *. cbn [filter]. rewrite Ha.
  split; [assumption|]. destruct ev; try discriminate; assumption.
Qed.

Lemma bind_assoc {W A B C} (m : M W A) (k1 : A -> M W B) (k2 : B -> M W C) w :
  bind (bind m k1) k2 w = bind m (fun a => bind (k1 a) k2) w.
Proof.
  unfold bind. destruct (m w) as [[[a|e] w1] t1]; [|reflexivity].
  destruct (k1 a w1) as [[[b|e] w2] t2]; [|reflexivity].
  destruct (k2 b w2) as [[r w3] t3]. now rewrite app_assoc.
Qed.

Lemma trace_bind_call {W A B} (P : event -> Prop) ev (op : W -> result A * W)
    (k : A -> M W B) w :
  (forall a, emits P (k a)) ->
  exists t, trace (bind (call ev op) k w) = ev :: t /\ Forall P t.
Proof.
  intros H. unfold bind, call.
  destruct (op w) as [[a|e] w1]; [|exists []; now split].
  specialize (H a w1). destruct (k a w1) as [[r w2] t2].
  exists t2. now split.
Qed.

(** A call of [upload_or_check] opens with [get_server_api]; nothing that
    follows is a second such call or a sleep. *)
Lemma upload_or_check_trace_shape {W} (env : Env W) os_environ recipe_dir owner channel
    variant w :
  exists t,
    trace (upload_or_check env os_environ recipe_dir owner channel variant w)
    = EvGetServerApi (resolve_token os_environ) :: t
    /\ Forall quiet t.
Proof.
  unfold upload_or_check, classify. rewrite bind_assoc.
  apply trace_bind_call. intros cli.
  apply emits_bind.
  - apply emits_bind.
    + apply emits_partition_distributions; intros; now split.
    + intros r. apply emits_ret.
  - intros [[cli' existing] new].
    apply emits_upload_or_skip; [intros; now split|].
    intros _. repeat split.
Qed.

(** One call of [upload_or_check] is one call of [get_server_api], and it
    never sleeps. *)
Lemma upload_or_check_trace {W} (env : Env W) os_environ recipe_dir owner channel
    variant w :
  calls (trace (upload_or_check env os_environ recipe_dir owner channel variant w)) = 1
  /\ sleeps (trace (upload_or_check env os_environ recipe_dir owner channel variant w)) = [].
Proof.
  destruct (upload_or_check_trace_shape env os_environ recipe_dir owner channel variant w)
    as (t & -> & H).
  apply quiet_trace in H. destruct H as [H1 H2].
  unfold calls in *. cbn [filter is_get_server_api length sleeps].
  now rewrite H1, H2.
Qed.

(** [n] failing attempts in a row, whatever follows them in the loop. *)
Lemma retry_loop_fails {W} (env : Env W) os_environ recipe_dir owner channel variant rest :
  forall n i w w',
    attempts_fail env os_environ recipe_dir owner channel variant n i w = Some w' ->
    exists T,
      retry_loop env os_environ (seq i n ++ rest) recipe_dir owner channel variant w
      = (outcome (retry_loop env os_environ rest recipe_dir owner channel variant w'),
         final (retry_loop env os_environ rest recipe_dir owner channel variant w'),
         T ++ trace (retry_loop env os_environ rest recipe_dir owner channel variant w'))
      /\ calls T = n
      /\ sleeps T = map (fun j => j ^ 2) (seq i n).
Proof.
  induction n as [|n IH]; intros i w w' H.
  - injection H as <-. exists []. cbn [seq app map].
    split; [apply run_eta | now split].
  - cbn [attempts_fail] in H. cbn [seq app]. rewrite retry_loop_cons.
    pose proof (upload_or_check_trace env os_environ recipe_dir owner channel variant w)
      as [Hc Hs].
    destruct (upload_or_check env os_environ recipe_dir owner channel variant w)
      as [[[res|e] w1] t1]; [discriminate|].
    destruct (is_Exception e); [|discriminate].
    destruct (IH _ _ _ H) as (T & E & HT1 & HT2).
    exists (t1 ++ EvPrint (failed_msg e (i ^ 2)) :: EvSleep (i ^ 2) :: T).
    rewrite E. cbn zeta. unfold outcome, final, trace in *. cbn [fst snd] in *.
    split; [|split].
    + f_equal. rewrite <- app_assoc. reflexivity.
    + rewrite calls_app, Hc. unfold calls in *. cbn [filter is_get_server_api].
      now rewrite HT1.
    + rewrite sleeps_app, Hs. cbn [app sleeps map]. now rewrite HT2.
Qed.

Lemma retry_loop_nil {W} (env : Env W) os_environ recipe_dir owner channel variant w :
  retry_loop env os_environ [] recipe_dir owner channel variant w
  = (Raise timeout_error, w, []).
Proof. reflexivity. Qed.

Lemma retry_loop_calls_le {W} (env : Env W) os_environ recipe_dir owner channel variant :
  forall attempts w,
    calls (trace (retry_loop env os_environ attempts recipe_dir owner channel variant w))
    <= length attempts.
Proof.
  induction attempts as [|i rest IH]; intros w; [cbn; lia|].
  rewrite retry_loop_cons.
  pose proof (upload_or_check_trace env os_environ recipe_dir owner channel variant w)
    as [Hc _].
  destruct (upload_or_check env os_environ recipe_dir owner channel variant w)
    as [[[res|e] w1] t1]; unfold trace in *; cbn [snd length] in *; [lia|].
  destruct (is_Exception e); cbn [snd]; [|lia].
  rewrite calls_app, Hc. specialize (IH (sleep env (i ^ 2) w1)).
  unfold calls in *. cbn [filter is_get_server_api]. lia.
Qed.

Lemma attempts_fail_always {W} (env : Env W) os_environ recipe_dir owner channel variant :
  (forall w, exists e,
      outcome (upload_or_check env os_environ recipe_dir owner channel variant w) = Raise e
      /\ is_Exception e = true) ->
  forall n i w, exists w',
    attempts_fail env os_environ recipe_dir owner channel variant n i w = Some w'.
Proof.
  intros H. induction n as [|n IH]; intros i w; [now exists w|].
  cbn [attempts_fail]. destruct (H w) as (e & He & Hx). unfold outcome in He.
  destruct (upload_or_check env os_environ recipe_dir owner channel variant w)
    as [[r w1] t1]. cbn [fst] in He. subst r. rewrite Hx. apply IH.
Qed.

(** Nine failing attempts: the loop is exhausted. *)
Lemma retry_all_fail {W} (env : Env W) os_environ recipe_dir owner channel variant w w' :
  attempts_fail env os_environ recipe_dir owner channel variant 9 1 w = Some w' ->
  let run := retry_upload_or_check env os_environ recipe_dir owner channel variant w in
  outcome run = Raise timeout_error
  /\ final run = w'
  /\ calls (trace run) = 9
  /\ sleeps (trace run) = [1; 4; 9; 16; 25; 36; 49; 64; 81].
Proof.
  intros H run. subst run. unfold retry_upload_or_check.
  destruct (retry_loop_fails env os_environ recipe_dir owner channel variant [] _ _ _ _ H)
    as (T & E & H1 & H2).
  rewrite app_nil_r in E. rewrite E, retry_loop_nil.
  unfold outcome, final, trace. cbn [fst snd]. rewrite app_nil_r.
  repeat split; assumption.
Qed.

(** C2.  The wrapper never calls [upload_or_check] more than 9 times.  If
    the 9 calls all raise an [Exception], it sleeps 1, 4, 9, ..., 81
    seconds, one sleep of [i ** 2] seconds after failure number [i], and
    then raises the TimeoutError.  If the first [k < 9] calls raise and
    call [k + 1] returns, that result is returned after [k + 1] calls and
    the sleeps 1, 4, ..., [k ** 2], and nothing more is done. *)
Theorem retry_upload_or_check_spec :
  forall (W : Type) (env : Env W) (os_environ : environ)
         (recipe_dir owner channel : str) (variant : list str) (w : W),
    let batch := upload_or_check env os_environ recipe_dir owner channel variant in
    let run := retry_upload_or_check env os_environ recipe_dir owner channel variant w in
    calls (trace run) <= 9
    /\ (forall w',
          attempts_fail env os_environ recipe_dir owner channel variant 9 1 w = Some w' ->
          outcome run = Raise timeout_error
          /\ final run = w'
          /\ calls (trace run) = 9
          /\ sleeps (trace run) = [1; 4; 9; 16; 25; 36; 49; 64; 81])
    /\ (forall k w1 res,
          k < 9 ->
          attempts_fail env os_environ recipe_dir owner channel variant k 1 w = Some w1 ->
          outcome (batch w1) = Return res ->
          outcome run = Return res
          /\ final run = final (batch w1)
          /\ calls (trace run) = k + 1
          /\ sleeps (trace run) = map (fun i => i ^ 2) (seq 1 k)).
Proof.
  intros W env os_environ recipe_dir owner channel variant w batch run.
  split; [|split].
  - apply (retry_loop_calls_le env os_environ recipe_dir owner channel variant (seq 1 9) w).
  - intros w' H. now apply retry_all_fail.
  - intros k w1 res Hk H Hres. subst run batch. unfold retry_upload_or_check.
    replace 9 with (k + S (8 - k)) by lia. rewrite seq_app. cbn [seq].
    destruct (retry_loop_fails env os_environ recipe_dir owner channel variant
                (1 + k :: seq (S (1 + k)) (8 - k)) _ _ _ _ H) as (T & E & H1 & H2).
    rewrite E, retry_loop_cons.
    pose proof (upload_or_check_trace env os_environ recipe_dir owner channel variant w1)
      as [Hc Hs].
    unfold outcome in Hres.
    destruct (upload_or_check env os_environ recipe_dir owner channel variant w1)
      as [[r w2] t2]. cbn [fst] in Hres. subst r.
    unfold outcome, final, trace in *. cbn [fst snd] in *.
    rewrite calls_app, sleeps_app, H1, H2, Hc, Hs, app_nil_r. now repeat split.
Qed.

(** An instance of C2: an API that is down for good, and one that comes
    back after five seconds of back-off. *)
Lemma retry_upload_or_check_spec_witness :
  (let run := retry_upload_or_check
                (sim_env [] [lit "bar-2.0-0.tar.bz2"] true
                         (down (Exn OSError (lit "connection reset"))))
                [] (lit "recipe") (lit "me") (lit "main") [] (sim0 []) in
   outcome run = Raise timeout_error
   /\ final run = {| remote := []; tmpdirs := []; slept := 285 |}
   /\ calls (trace run) = 9
   /\ sleeps (trace run) = [1; 4; 9; 16; 25; 36; 49; 64; 81])
  /\ (let run := retry_upload_or_check
                   (sim_env [] [lit "bar-2.0-0.tar.bz2"] true
                            (down_until 5 (Exn OSError (lit "connection reset"))))
                   [] (lit "recipe") (lit "me") (lit "main") [] (sim0 []) in
      outcome run = Return false
      /\ calls (trace run) = 2 + 1
      /\ sleeps (trace run) = [1; 4]).
Proof.
  split.
  - apply (retry_upload_or_check_spec sim
             (sim_env [] [lit "bar-2.0-0.tar.bz2"] true
                      (down (Exn OSError (lit "connection reset"))))
             [] (lit "recipe") (lit "me") (lit "main") [] (sim0 [])).
    reflexivity.
  - intros run.
    destruct (retry_upload_or_check_spec sim
                (sim_env [] [lit "bar-2.0-0.tar.bz2"] true
                         (down_until 5 (Exn OSError (lit "connection reset"))))
                [] (lit "recipe") (lit "me") (lit "main") [] (sim0 []))
      as (_ & _ & H).
    destruct (H 2 {| remote := []; tmpdirs := []; slept := 5 |} false
                ltac:(lia) eq_refl eq_refl) as (H1 & _ & H2 & H3).
    repeat split; assumption.
Defined.

(** A [KeyboardInterrupt] is not an [Exception]: the wrapper lets it
    through after one call and no sleep. *)
Example retry_lets_base_exceptions_through :
  let run := retry_upload_or_check
               (sim_env [] [lit "bar-2.0-0.tar.bz2"] true (down (Exn KeyboardInterrupt [])))
               [] (lit "recipe") (lit "me") (lit "main") [] (sim0 []) in
  outcome run = Raise (Exn KeyboardInterrupt [])
  /\ calls (trace run) = 1 /\ sleeps (trace run) = [].
Proof. vm_compute. repeat split; reflexivity. Qed.

(** ** A malformed artifact name *)

Lemma unpack2_raise (l : list str) (e : exn) :
  unpack2 l = Raise e -> exn_cls e = ValueError.
Proof.
  destruct l as [|a [|b [|c l]]]; cbn [unpack2]; try discriminate;
    now intros [= <-].
Qed.

(** Behind the suffix filter of the batch, the only error [split_pkg] can
    raise is the ValueError of a failed unpacking. *)
Lemma split_pkg_raise_class (p : str) (e : exn) :
  endswith p tar_bz2 = true -> split_pkg p = Raise e -> exn_cls e = ValueError.
Proof.
  intros H. unfold split_pkg. rewrite H. cbn [negb].
  destruct (unpack2 (split (drop_last 8 p) "/")) as [[plat pkg_name]|e1] eqn:E1;
    cbn [rbind]; [|intros [= <-]; now apply unpack2_raise in E1].
  destruct (unpack2 (rsplit1 pkg_name "-")) as [[name_ver build]|e2] eqn:E2;
    cbn [rbind]; [|intros [= <-]; now apply unpack2_raise in E2].
  destruct (unpack2 (rsplit1 name_ver "-")) as [[name ver]|e3] eqn:E3;
    cbn [rbind]; [discriminate|intros [= <-]; now apply unpack2_raise in E3].
Qed.

Lemma built_distributions_malformed (paths : list str) :
  (exists p e, In p paths /\ endswith p tar_bz2 = true /\ split_pkg p = Raise e) ->
  exists e, built_distributions paths = Raise e /\ exn_cls e = ValueError.
Proof.
  induction paths as [|q paths IH]; intros (p & e & Hin & Hs & Hp); [destruct Hin|].
  cbn [built_distributions].
  destruct (endswith q tar_bz2) eqn:Eq.
  - destruct (split_pkg q) as [[[[plat name] ver] build]|e'] eqn:Es; cbn [rbind].
    + destruct Hin as [->|Hin]; [congruence|].
      destruct IH as (e'' & -> & Hc); [now exists p, e|].
      exists e''. now split.
    + exists e'. split; [reflexivity|]. now apply (split_pkg_raise_class q).
  - destruct Hin as [->|Hin]; [congruence|]. apply IH. now exists p, e.
Qed.

(** Whatever the listing, the only parse error the batch can raise is a
    ValueError: the RuntimeError of [split_pkg] is shielded by the suffix
    filter. *)
Lemma built_distributions_raise_class (paths : list str) (e : exn) :
  built_distributions paths = Raise e -> exn_cls e = ValueError.
Proof.
  induction paths as [|q paths IH]; cbn [built_distributions]; [discriminate|].
  destruct (endswith q tar_bz2) eqn:Eq; [|exact IH].
  destruct (split_pkg q) as [[[[plat name] ver] build]|e'] eqn:Es; cbn [rbind].
  - destruct (built_distributions paths) as [r|e'']; cbn [rbind]; [discriminate|].
    intros [= <-]. now apply IH.
  - intros [= <-]. now apply (split_pkg_raise_class q).
Qed.

(** The batch on a listing with a malformed name: the error leaves
    [upload_or_check] as an ordinary ValueError. *)
Lemma upload_or_check_malformed {W} (env : Env W) os_environ recipe_dir owner channel
    variant l1 l2 :
  (forall w, exists cli w1,
      get_server_api env (resolve_token os_environ) w = (Return cli, w1)) ->
  (forall w, exists w1,
      listdir env (path_join (croot env) (lit "noarch")) w = (Return l1, w1)) ->
  (forall w, exists w1,
      listdir env (path_join (croot env) (subdir env)) w = (Return l2, w1)) ->
  (exists p e,
      In p (map (fun p => path_join (lit "noarch") p) l1
            ++ map (fun p => path_join (subdir env) p) l2)
      /\ endswith p tar_bz2 = true /\ split_pkg p = Raise e) ->
  forall w, exists e,
    outcome (upload_or_check env os_environ recipe_dir owner channel variant w) = Raise e
    /\ exn_cls e = ValueError.
Proof.
  intros Ha Hl1 Hl2 Hbad w.
  apply built_distributions_malformed in Hbad. destruct Hbad as (e & Hb & Hc).
  exists e. split; [|assumption].
  unfold upload_or_check, classify, partition_distributions.
  destruct (Ha w) as (cli & w1 & E1). destruct (Hl1 w1) as (w2 & E2).
  destruct (Hl2 w2) as (w3 & E3).
  unfold bind, call, lift, outcome. rewrite E1, E2, E3, Hb. reflexivity.
Qed.

(** C3, as the code has it.  A malformed name that passes the suffix
    filter makes the batch raise a ValueError; the wrapper catches it like
    any other [Exception], sleeps and calls the batch again; while the
    file stays in the listing every one of the 9 calls fails the same way
    and the run ends with the TimeoutError after the sleeps 1, 4, ..., 81. *)
Theorem malformed_name_is_retried :
  forall (W : Type) (env : Env W) (os_environ : environ)
         (recipe_dir owner channel : str) (variant : list str) (l1 l2 : list str),
    (forall w, exists cli w1,
        get_server_api env (resolve_token os_environ) w = (Return cli, w1)) ->
    (forall w, exists w1,
        listdir env (path_join (croot env) (lit "noarch")) w = (Return l1, w1)) ->
    (forall w, exists w1,
        listdir env (path_join (croot env) (subdir env)) w = (Return l2, w1)) ->
    (exists p e,
        In p (map (fun p => path_join (lit "noarch") p) l1
              ++ map (fun p => path_join (subdir env) p) l2)
        /\ endswith p tar_bz2 = true /\ split_pkg p = Raise e) ->
    forall w,
      let batch := upload_or_check env os_environ recipe_dir owner channel variant w in
      let run := retry_upload_or_check env os_environ recipe_dir owner channel variant w in
      (exists e, outcome batch = Raise e /\ exn_cls e = ValueError
                 /\ is_Exception e = true)
      /\ outcome run = Raise timeout_error
      /\ calls (trace run) = 9
      /\ sleeps (trace run) = [1; 4; 9; 16; 25; 36; 49; 64; 81].
Proof.
  intros W env os_environ recipe_dir owner channel variant l1 l2 Ha Hl1 Hl2 Hbad w
         batch run.
  pose proof (upload_or_check_malformed env os_environ recipe_dir owner channel variant
                l1 l2 Ha Hl1 Hl2 Hbad) as Hraise.
  split.
  - destruct (Hraise w) as (e & He & Hc). exists e. repeat split; try assumption.
    unfold is_Exception. now rewrite Hc.
  - destruct (attempts_fail_always env os_environ recipe_dir owner channel variant)
      with (n := 9) (i := 1) (w := w) as (w' & Hf).
    + intros w0. destruct (Hraise w0) as (e & He & Hc). exists e.
      split; [assumption|]. unfold is_Exception. now rewrite Hc.
    + destruct (retry_all_fail env os_environ recipe_dir owner channel variant w w' Hf)
        as (H1 & _ & H2 & H3).
      repeat split; assumption.
Qed.

(** An instance: [noarch] holds [foo.tar.bz2], a name with no hyphen. *)
Lemma malformed_name_is_retried_witness :
  let run := retry_upload_or_check (sim_env [lit "foo.tar.bz2"] [] true up)
               (with_token (lit "secret")) (lit "recipe") (lit "me") (lit "main") []
               (sim0 []) in
  outcome run = Raise timeout_error
  /\ calls (trace run) = 9
  /\ sleeps (trace run) = [1; 4; 9; 16; 25; 36; 49; 64; 81].
Proof.
  apply (malformed_name_is_retried sim (sim_env [lit "foo.tar.bz2"] [] true up)
           (with_token (lit "secret")) (lit "recipe") (lit "me") (lit "main") []
           [lit "foo.tar.bz2"] []).
  - intros w. now exists {| cli_token := Some (lit "secret") |}, w.
  - intros w. now exists w.
  - intros w. now exists w.
  - exists (lit "noarch/foo.tar.bz2"),
      (Exn ValueError (lit "not enough values to unpack (expected 2, got 1)")).
    split; [now left | split; reflexivity].
Defined.

(** C3 as the specification words it does not hold: with [foo.tar.bz2] in
    [noarch] the batch raises the parse error, but the run does not end
    with that error after one call; the wrapper calls the batch 9 times,
    sleeps 285 seconds in all and raises the TimeoutError. *)
Lemma malformed_name_not_fatal :
  let env := sim_env [lit "foo.tar.bz2"] [] true up in
  let parse_error := Exn ValueError (lit "not enough values to unpack (expected 2, got 1)") in
  let batch := upload_or_check env (with_token (lit "secret")) (lit "recipe") (lit "me")
                 (lit "main") [] (sim0 []) in
  let run := retry_upload_or_check env (with_token (lit "secret")) (lit "recipe")
               (lit "me") (lit "main") [] (sim0 []) in
  outcome batch = Raise parse_error
  /\ ~ (outcome run = Raise parse_error /\ calls (trace run) = 1)
  /\ outcome run = Raise timeout_error
  /\ calls (trace run) = 9
  /\ slept (final run) = 285.
Proof.
  vm_compute. repeat split; try reflexivity. intros [H _]. discriminate H.
Qed.

(** ** The variant option *)

Lemma retry_loop_variant {W} (env : Env W) os_environ recipe_dir owner channel
    (variant1 variant2 : list str) (attempts : list nat) :
  retry_loop env os_environ attempts recipe_dir owner channel variant1
  = retry_loop env os_environ attempts recipe_dir owner channel variant2.
Proof.
  induction attempts as [|i rest IH]; [reflexivity|].
  cbn [retry_loop]. rewrite IH. reflexivity.
Qed.

(** C9.  [variant] has no effect: two calls of [upload_or_check], or of
    [retry_upload_or_check], that differ in [variant] only give the same
    result, the same final world and the same trace of listings, lookups,
    printed lines, uploads and sleeps. *)
Theorem variant_is_ignored :
  forall (W : Type) (env : Env W) (os_environ : environ)
         (recipe_dir owner channel : str) (variant1 variant2 : list str) (w : W),
    upload_or_check env os_environ recipe_dir owner channel variant1 w
    = upload_or_check env os_environ recipe_dir owner channel variant2 w
    /\ retry_upload_or_check env os_environ recipe_dir owner channel variant1 w
       = retry_upload_or_check env os_environ recipe_dir owner channel variant2 w.
Proof.
  intros. split; [reflexivity|].
  unfold retry_upload_or_check.
  now rewrite (retry_loop_variant env os_environ recipe_dir owner channel variant1 variant2).
Qed.

(** ** The placeholder token *)

Lemma retry_loop_environ {W} (env : Env W) (e1 e2 : environ) recipe_dir owner channel
    variant :
  (forall w, upload_or_check env e1 recipe_dir owner channel variant w
             = upload_or_check env e2 recipe_dir owner channel variant w) ->
  forall attempts w,
    retry_loop env e1 attempts recipe_dir owner channel variant w
    = retry_loop env e2 attempts recipe_dir owner channel variant w.
Proof.
  intros H. induction attempts as [|i rest IH]; intros w; [reflexivity|].
  rewrite !retry_loop_cons, H.
  destruct (upload_or_check env e2 recipe_dir owner channel variant w)
    as [[[res|e] w1] t1]; [reflexivity|].
  destruct (is_Exception e); [|reflexivity]. now rewrite IH.
Qed.

Lemma retry_loop_no_token_emits {W} (env : Env W) os_environ recipe_dir owner channel
    variant attempts :
  truthy (resolve_token os_environ) = false ->
  emits no_check_call
        (retry_loop env os_environ attempts recipe_dir owner channel variant).
Proof.
  intros H. induction attempts as [|i rest IH]; cbn [retry_loop].
  - apply emits_raise.
  - apply emits_bind; [now apply emits_try, upload_or_check_no_token_emits|].
    intros [res|e]; [apply emits_ret|].
    destruct (is_Exception e); [|apply emits_raise].
    apply emits_bind; [now apply emits_print|]. intros _.
    apply emits_bind; [|intros _; exact IH].
    intros w. cbn. now repeat constructor.
Qed.

(** C7.  A BINSTAR_TOKEN that starts with ["$("] gives the very same run
    as no BINSTAR_TOKEN: same result, same final world and same trace
    (client creation, listings, lookups, printed lines, sleeps), for the
    batch and for the retried run; and no upload is invoked. *)
Theorem placeholder_token_is_no_token :
  forall (W : Type) (env : Env W) (environ1 environ2 : environ) (s : str)
         (recipe_dir owner channel : str) (variant : list str) (w : W),
    environ_get environ1 (lit "BINSTAR_TOKEN") = Some s ->
    startswith s (lit "$(") = true ->
    environ_get environ2 (lit "BINSTAR_TOKEN") = None ->
    upload_or_check env environ1 recipe_dir owner channel variant w
    = upload_or_check env environ2 recipe_dir owner channel variant w
    /\ retry_upload_or_check env environ1 recipe_dir owner channel variant w
       = retry_upload_or_check env environ2 recipe_dir owner channel variant w
    /\ Forall (fun ev => is_check_call ev = false)
              (trace (retry_upload_or_check env environ1 recipe_dir owner channel
                        variant w)).
Proof.
  intros W env environ1 environ2 s recipe_dir owner channel variant w H1 H2 H3.
  pose proof (resolve_token_placeholder environ1 s H1 H2) as R1.
  pose proof (resolve_token_unset environ2 H3) as R2.
  assert (E : forall w0, upload_or_check env environ1 recipe_dir owner channel variant w0
                         = upload_or_check env environ2 recipe_dir owner channel variant w0).
  { intros w0. unfold upload_or_check. rewrite R1, R2. reflexivity. }
  split; [apply E|]. split.
  - unfold retry_upload_or_check. now apply retry_loop_environ.
  - apply retry_loop_no_token_emits. now rewrite R1.
Qed.

(** An instance of C7: Azure's unresolved secret against an empty
    environment. *)
Lemma placeholder_token_is_no_token_witness :
  let env := sim_env [] [lit "bar-2.0-0.tar.bz2"] true up in
  upload_or_check env (with_token (lit "$(BINSTAR_TOKEN)")) (lit "recipe") (lit "me")
    (lit "main") [] (sim0 [])
  = upload_or_check env [] (lit "recipe") (lit "me") (lit "main") [] (sim0 []).
Proof.
  intros env.
  apply (placeholder_token_is_no_token sim env (with_token (lit "$(BINSTAR_TOKEN)")) []
           (lit "$(BINSTAR_TOKEN)") (lit "recipe") (lit "me") (lit "main") [] (sim0 []));
    reflexivity.
Defined.

(** ** Classification when nothing is on the account *)

Lemma outcome_bind {W A B} (m : M W A) (k : A -> M W B) w a :
  outcome (m w) = Return a ->
  outcome (bind m k w) = outcome (k a (final (m w))).
Proof.
  unfold outcome, final, bind. destruct (m w) as [[r w1] t1]. cbn [fst snd].
  intros ->. now destruct (k a w1) as [[r2 w2] t2].
Qed.

Lemma final_bind {W A B} (m : M W A) (k : A -> M W B) w a :
  outcome (m w) = Return a ->
  final (bind m k w) = final (k a (final (m w))).
Proof.
  unfold outcome, final, bind. destruct (m w) as [[r w1] t1]. cbn [fst snd].
  intros ->. now destruct (k a w1) as [[r2 w2] t2].
Qed.

(** A condition that answers [b] in every world of [Inv], and keeps the
    world in [Inv]. *)
Lemma filterM_const {W A} (Inv : W -> Prop) (cond : A -> M W bool) (l : list A) (b : bool) :
  (forall x, In x l -> forall w, Inv w ->
             outcome (cond x w) = Return b /\ Inv (final (cond x w))) ->
  forall w, Inv w ->
    outcome (filterM cond l w) = Return (if b then l else [])
    /\ Inv (final (filterM cond l w)).
Proof.
  induction l as [|x l IH]; intros H w Hw; [now destruct b|].
  cbn [filterM].
  destruct (H x (or_introl eq_refl) w Hw) as [Hx Hi].
  destruct (IH (fun y Hy => H y (or_intror Hy)) _ Hi) as [Hl Hi'].
  rewrite (outcome_bind _ _ _ b Hx), (final_bind _ _ _ b Hx).
  rewrite (outcome_bind _ _ _ _ Hl), (final_bind _ _ _ _ Hl).
  split; [now destruct b | exact Hi'].
Qed.

Lemma built_distribution_already_exists_not_found {W} (env : Env W) cli name version
    fname owner w e w' :
  distribution env cli owner name version (distro_name_of fname) w = (Raise e, w') ->
  is_NotFound e = true ->
  outcome (built_distribution_already_exists env cli name version fname owner w)
  = Return false
  /\ final (built_distribution_already_exists env cli name version fname owner w) = w'.
Proof.
  intros H He. unfold built_distribution_already_exists, distro_name_of in *.
  destruct (path_split fname) as [folder basename]. cbn [fst snd] in H.
  destruct (path_split folder) as [f' platform]. cbn [fst snd] in H.
  unfold bind, try, call. rewrite H, He. now split.
Qed.

Lemma built_distributions_ok (paths : list str) :
  (forall p, In p paths -> endswith p tar_bz2 = true -> exists t, split_pkg p = Return t) ->
  exists built,
    built_distributions paths = Return built
    /\ map (fun '(_, _, path) => path) built = filter (fun p => endswith p tar_bz2) paths
    /\ (forall name version path,
          In (name, version, path) built ->
          endswith path tar_bz2 = true /\ In path paths
          /\ exists plat build, split_pkg path = Return (plat, name, version, build)).
Proof.
  induction paths as [|q paths IH]; intros H.
  - exists []. repeat split; intros; contradiction.
  - destruct IH as (built & Hb & Hm & Hin).
    { intros p Hp. apply H. now right. }
    cbn [built_distributions filter].
    destruct (endswith q tar_bz2) eqn:Eq.
    + destruct (H q (or_introl eq_refl) Eq) as ([[[plat name] ver] build] & Hq).
      rewrite Hq, Hb. cbn [rbind].
      exists ((name, ver, q) :: built). split; [reflexivity|]. split.
      * cbn [map]. now rewrite Hm.
      * intros n v p [[= <- <- <-]|Hp].
        -- split; [assumption|]. split; [now left|]. now exists plat, build.
        -- destruct (Hin _ _ _ Hp) as (Ha & Hb' & Hc). split; [assumption|].
           split; [now right | assumption].
    + exists built. split; [assumption|]. split; [assumption|].
      intros n v p Hp. destruct (Hin _ _ _ Hp) as (Ha & Hb' & Hc).
      split; [assumption|]. split; [now right | assumption].
Qed.

Lemma outcome_call {W A} (ev : event) (op : W -> result A * W) w :
  outcome (call ev op w) = fst (op w) /\ final (call ev op w) = snd (op w).
Proof.
  unfold call, outcome, final. now destruct (op w).
Qed.

(** C8.  When the client is created, both directories are listed, every
    listed name with the archive suffix parses, and every lookup of the
    run for such an artifact is answered NotFound ([Inv] holds of the
    worlds in which these lookups are made), the classification returns an
    empty list of existing distributions and, as the new ones, all the
    listed paths with the archive suffix: each artifact is in the new list
    and not in the existing one. *)
Theorem all_not_found_all_new :
  forall (W : Type) (env : Env W) (token : option str) (owner : str)
         (w w1 w2 w3 : W) (cli : Binstar) (l1 l2 : list str) (Inv : W -> Prop),
    get_server_api env token w = (Return cli, w1) ->
    listdir env (path_join (croot env) (lit "noarch")) w1 = (Return l1, w2) ->
    listdir env (path_join (croot env) (subdir env)) w2 = (Return l2, w3) ->
    let paths := map (fun p => path_join (lit "noarch") p) l1
                 ++ map (fun p => path_join (subdir env) p) l2 in
    let artifacts := filter (fun p => endswith p tar_bz2) paths in
    (forall p, In p artifacts -> exists t, split_pkg p = Return t) ->
    Inv w3 ->
    (forall p plat name version build w',
        In p artifacts -> split_pkg p = Return (plat, name, version, build) ->
        Inv w' ->
        exists e w'',
          distribution env cli owner name version (distro_name_of p) w' = (Raise e, w'')
          /\ is_NotFound e = true /\ Inv w'') ->
    outcome (classify env token owner w) = Return (cli, [], artifacts)
    /\ (forall existing new,
          outcome (classify env token owner w) = Return (cli, existing, new) ->
          forall p, In p artifacts -> In p new /\ ~ In p existing).
Proof.
  intros W env token owner w w1 w2 w3 cli l1 l2 Inv E1 E2 E3 paths artifacts
         Hparse Hw3 Hnf.
  assert (Hc : outcome (classify env token owner w) = Return (cli, [], artifacts)).
  2:{ split; [assumption|]. intros existing new H p Hp.
      rewrite Hc in H. injection H as <- <-. now split. }
  destruct (built_distributions_ok paths) as (built & Hb & Hm & Hin).
  { intros p Hp Hs. apply Hparse. apply filter_In. now split. }
  assert (Hlook : forall name version path w',
             In (name, version, path) built -> Inv w' ->
             outcome (built_distribution_already_exists env cli name version path owner w')
             = Return false
             /\ Inv (final (built_distribution_already_exists env cli name version path
                              owner w'))).
  { intros n v p w' Hp Hw'. destruct (Hin _ _ _ Hp) as (Hs & Hpp & plat & build & Hsp).
    destruct (Hnf p plat n v build w') as (e & w'' & Hd & He & Hi); try assumption.
    { apply filter_In. now split. }
    destruct (built_distribution_already_exists_not_found env cli n v p owner w' e w''
                Hd He) as [-> ->].
    now split. }
  unfold classify.
  destruct (outcome_call (EvGetServerApi token) (get_server_api env token) w) as [O1 F1].
  rewrite E1 in O1, F1. rewrite (outcome_bind _ _ _ _ O1), F1. cbn [snd].
  rewrite (outcome_bind _ _ _ ([], artifacts)); [reflexivity|].
  unfold partition_distributions.
  destruct (outcome_call (EvListdir (path_join (croot env) (lit "noarch")))
              (listdir env (path_join (croot env) (lit "noarch"))) w1) as [O2 F2].
  rewrite E2 in O2, F2. rewrite (outcome_bind _ _ _ _ O2), F2. cbn [snd].
  destruct (outcome_call (EvListdir (path_join (croot env) (subdir env)))
              (listdir env (path_join (croot env) (subdir env))) w2) as [O3 F3].
  rewrite E3 in O3, F3. rewrite (outcome_bind _ _ _ _ O3), F3. cbn [snd].
  fold paths. rewrite (outcome_bind _ _ _ built) by (unfold lift, outcome; now rewrite Hb).
  change (final (lift (built_distributions paths) w3)) with w3.
  destruct (filterM_const Inv
              (fun '(name, version, path) =>
                 built_distribution_already_exists env cli name version path owner)
              built false) with (w := w3) as [P1 I1]; [|assumption|].
  { intros [[n v] p] Hp w' Hw'. now apply Hlook. }
  rewrite (outcome_bind _ _ _ _ P1).
  cbn [map for_each].
  rewrite (outcome_bind _ _ _ tt) by reflexivity.
  unfold ret at 1. unfold final at 1. cbn [fst snd].
  destruct (filterM_const Inv
              (fun '(name, version, path) =>
                 bind (built_distribution_already_exists env cli name version path owner)
                      (fun b => ret (negb b)))
              built true) with (w := final (filterM
                (fun '(name, version, path) =>
                   built_distribution_already_exists env cli name version path owner)
                built w3)) as [P2 I2]; [|assumption|].
  { intros [[n v] p] Hp w' Hw'. destruct (Hlook n v p w' Hp Hw') as [Ho Hi].
    rewrite (outcome_bind _ _ _ false Ho), (final_bind _ _ _ false Ho). now split. }
  rewrite (outcome_bind _ _ _ _ P2).
  unfold ret, outcome. cbn [fst]. fold artifacts in Hm. now rewrite Hm.
Qed.

(** An instance of C8: two artifacts and a text file in [linux-64], an
    empty account. *)
Lemma all_not_found_all_new_witness :
  outcome (classify (sim_env [] [lit "foo-1.0-0.tar.bz2"; lit "notes.txt";
                                 lit "bar-2.0-0.tar.bz2"] true up)
                    None (lit "me") (sim0 []))
  = Return ({| cli_token := None |}, [],
            [lit "linux-64/foo-1.0-0.tar.bz2"; lit "linux-64/bar-2.0-0.tar.bz2"]).
Proof.
  apply (all_not_found_all_new sim
           (sim_env [] [lit "foo-1.0-0.tar.bz2"; lit "notes.txt"; lit "bar-2.0-0.tar.bz2"]
                    true up)
           None (lit "me") (sim0 []) (sim0 []) (sim0 []) (sim0 [])
           {| cli_token := None |} []
           [lit "foo-1.0-0.tar.bz2"; lit "notes.txt"; lit "bar-2.0-0.tar.bz2"]
           (fun w' => remote w' = [])
           eq_refl eq_refl eq_refl).
  - intros p [<-|[<-|[]]]; eexists; reflexivity.
  - reflexivity.
  - intros p plat name version build w' _ _ Hw'.
    exists (Exn NotFound (lit "404")), w'.
    cbn [sim_env distribution up]. rewrite Hw'. now repeat split.
Defined.

(** * Further properties of the code *)

(** ** distribution_exists_on_channel *)

Lemma path_basename_no_slash (base : str) :
  ~ In "/"%char base -> path_basename base = base.
Proof.
  intros H. unfold path_basename, sep. now rewrite rfind_no_sep.
Qed.

Lemma path_basename_dir (dir base : str) :
  ~ In "/"%char base -> path_basename (dir ++ lit "/" ++ base) = base.
Proof.
  intros H. unfold path_basename, sep. change (lit "/" ++ base) with ("/"%char :: base).
  rewrite rfind_last by assumption.
  replace (S (length dir)) with (length (dir ++ ["/"%char]))
    by (rewrite length_app; simpl; lia).
  replace (dir ++ "/"%char :: base) with ((dir ++ ["/"%char]) ++ base)
    by (now rewrite <- app_assoc).
  now rewrite skipn_app, skipn_all, Nat.sub_diag.
Qed.

(** X15.  [distribution_exists_on_channel] asks for the index of
    [owner/label/channel] once, uncached.  Only the file name of [fname]
    counts.  The answer is [True] exactly when the index has a record for
    that file name whose [subdir] is [conda_subdir]; a file missing from
    the index, or a record without [subdir], gives [False] and no
    exception.  An exception of [get_index] leaves the function as it
    is. *)
Theorem distribution_exists_on_channel_spec :
  forall (W Meta : Type)
         (get_index : list str -> bool -> bool -> W -> result channel_index * W)
         (conda_subdir : str) (cli : Binstar) (meta : Meta)
         (fname dir base owner channel : str) (w : W),
    ~ In "/"%char base ->
    fname = base \/ fname = dir ++ lit "/" ++ base ->
    let query := get_index [owner ++ lit "/label/" ++ channel] false false w in
    let run := distribution_exists_on_channel get_index conda_subdir cli meta
                 fname owner channel w in
    snd run = snd query
    /\ (forall e, fst query = Raise e -> fst run = Raise e)
    /\ (forall index, fst query = Return index ->
          exists b, fst run = Return b
                    /\ (b = true <->
                        exists record,
                          dict_get index base = Some record
                          /\ dict_get record (lit "subdir") = Some conda_subdir)).
Proof.
  intros W Meta get_index conda_subdir cli meta fname dir base owner channel w Hb Hf
         query run.
  assert (Hbase : path_basename fname = base).
  { destruct Hf as [->| ->];
      [now apply path_basename_no_slash | now apply path_basename_dir]. }
  assert (Hurl : str_join (lit "/") [owner; lit "label"; channel]
                 = owner ++ lit "/label/" ++ channel).
  { cbn [str_join]. change (lit "/label/") with (lit "/" ++ lit "label" ++ lit "/").
    now rewrite <- !app_assoc. }
  subst run query. unfold distribution_exists_on_channel. rewrite Hbase, Hurl.
  destruct (get_index _ false false w) as [[index|e] w1]; cbn [fst snd].
  - split; [reflexivity|]. split; [discriminate|].
    intros index' [= <-]. eexists. split; [reflexivity|].
    destruct (dict_get index base) as [record|].
    + destruct (dict_get record (lit "subdir")) as [sd|] eqn:Es.
      * rewrite str_eqb_eq. split.
        -- intros ->. now exists record.
        -- intros (r & [= <-] & H). congruence.
      * split; [discriminate|]. intros (r & [= <-] & H). congruence.
    + split; [discriminate|]. intros (r & H & _). discriminate H.
  - split; [reflexivity|]. split; [now intros e' [= <-] | discriminate].
Qed.

(** An instance of X15: a file published for [linux-64], asked for with
    its build directory in front. *)
Lemma distribution_exists_on_channel_spec_witness :
  fst (distribution_exists_on_channel (sim_get_index [lit "bar-2.0-0.tar.bz2"])
         (lit "linux-64") {| cli_token := None |} tt
         (lit "/opt/conda-bld/linux-64" ++ lit "/" ++ lit "bar-2.0-0.tar.bz2")
         (lit "me") (lit "main") (sim0 []))
  = Return true.
Proof.
  destruct (distribution_exists_on_channel_spec sim unit
              (sim_get_index [lit "bar-2.0-0.tar.bz2"]) (lit "linux-64")
              {| cli_token := None |} tt
              (lit "/opt/conda-bld/linux-64" ++ lit "/" ++ lit "bar-2.0-0.tar.bz2")
              (lit "/opt/conda-bld/linux-64") (lit "bar-2.0-0.tar.bz2")
              (lit "me") (lit "main") (sim0 []))
    as (_ & _ & H).
  - simpl. intuition discriminate.
  - now right.
  - destruct (H _ eq_refl) as (b & Hrun & Hb). rewrite Hrun. f_equal.
    apply Hb. eexists. split; reflexivity.
Defined.

(** ** More on the artifact name parser *)

Lemma split_not_nil (s : str) (c : ascii) : split s c <> [].
Proof.
  destruct s as [|x s]; cbn [split]; [discriminate|].
  destruct (Ascii.eqb x c); [discriminate|].
  destruct (split s c); discriminate.
Qed.

Lemma split_one_inv (c : ascii) :
  forall s b, split s c = [b] -> s = b /\ ~ In c b.
Proof.
  induction s as [|x s IH]; intros b; cbn [split].
  - intros [= <-]. split; [reflexivity | intros []].
  - destruct (Ascii.eqb x c) eqn:E.
    + intros [= _ H]. now apply split_not_nil in H.
    + destruct (split s c) as [|h r] eqn:Es; [now apply split_not_nil in Es|].
      intros [= <- ->]. destruct (IH h eq_refl) as [-> Hn].
      split; [reflexivity|]. intros [->|H]; [|tauto].
      now rewrite Ascii.eqb_refl in E.
Qed.

Lemma split_two_inv (c : ascii) :
  forall s a b, split s c = [a; b] -> s = a ++ c :: b /\ ~ In c a /\ ~ In c b.
Proof.
  induction s as [|x s IH]; intros a b; cbn [split]; [discriminate|].
  destruct (Ascii.eqb x c) eqn:E.
  - intros [= <- H]. apply Ascii.eqb_eq in E. subst x.
    destruct (split_one_inv c s b H) as [-> Hn]. now repeat split.
  - destruct (split s c) as [|h r] eqn:Es; [now apply split_not_nil in Es|].
    intros [= <- ->]. destruct (IH h b eq_refl) as (-> & Ha & Hb).
    repeat split; [|assumption]. intros [->|H]; [|tauto].
    now rewrite Ascii.eqb_refl in E.
Qed.

Lemma split_app_length (a b : str) (c : ascii) :
  length (split (a ++ c :: b) c) = length (split a c) + length (split b c).
Proof.
  induction a as [|x a IH]; cbn [app split].
  - now rewrite Ascii.eqb_refl.
  - destruct (Ascii.eqb x c); cbn [length]; [now rewrite IH|].
    destruct (split (a ++ c :: b) c) as [|h r] eqn:E1; [now apply split_not_nil in E1|].
    destruct (split a c) as [|h' r'] eqn:E2; [now apply split_not_nil in E2|].
    exact IH.
Qed.

Lemma rfind_none_inv (c : ascii) :
  forall s, rfind s c = None -> ~ In c s.
Proof.
  induction s as [|x s IH]; cbn [rfind]; [intros _ []|].
  destruct (rfind s c); [discriminate|].
  destruct (Ascii.eqb x c) eqn:E; [discriminate|].
  intros _ [->|H]; [now rewrite Ascii.eqb_refl in E | now apply IH].
Qed.

Lemma rfind_some_inv (c : ascii) :
  forall s i, rfind s c = Some i ->
              exists a b, s = a ++ c :: b /\ length a = i /\ ~ In c b.
Proof.
  induction s as [|x s IH]; intros i; cbn [rfind]; [discriminate|].
  destruct (rfind s c) as [j|] eqn:E.
  - intros [= <-]. destruct (IH j eq_refl) as (a & b & -> & <- & Hb).
    now exists (x :: a), b.
  - destruct (Ascii.eqb x c) eqn:Ex; [|discriminate].
    intros [= <-]. apply Ascii.eqb_eq in Ex. subst x.
    exists [], s. repeat split. now apply rfind_none_inv.
Qed.

Lemma rsplit1_two_inv (c : ascii) (s a b : str) :
  rsplit1 s c = [a; b] -> s = a ++ c :: b /\ ~ In c b.
Proof.
  unfold rsplit1. destruct (rfind s c) as [i|] eqn:E; [|discriminate].
  destruct (rfind_some_inv c s i E) as (a' & b' & -> & <- & Hb).
  rewrite <- (Nat.add_0_r (length a')), firstn_app_2. cbn [firstn]. rewrite app_nil_r.
  replace (S (length a' + 0)) with (length (a' ++ [c]))
    by (rewrite length_app; simpl; lia).
  replace (a' ++ c :: b') with ((a' ++ [c]) ++ b') at 1
    by (now rewrite <- app_assoc).
  rewrite skipn_app, skipn_all, Nat.sub_diag. cbn [skipn app].
  intros [= <- <-]. now split.
Qed.

Lemma unpack2_return (l : list str) (a b : str) :
  unpack2 l = Return (a, b) -> l = [a; b].
Proof.
  destruct l as [|x [|y [|z l]]]; cbn [unpack2]; try discriminate.
  now intros [= <- <-].
Qed.

(** X1.  Whatever [split_pkg] returns can be put together again: the path
    is [plat/name-ver-build.tar.bz2], the slash is the only one of the
    path, and neither [ver] nor [build] holds a hyphen. *)
Theorem split_pkg_inversion :
  forall pkg plat name ver build : str,
    split_pkg pkg = Return (plat, name, ver, build) ->
    pkg = plat ++ lit "/" ++ name ++ lit "-" ++ ver ++ lit "-" ++ build ++ lit ".tar.bz2"
    /\ ~ In "/"%char plat /\ ~ In "/"%char name
    /\ ~ In "/"%char ver /\ ~ In "/"%char build
    /\ ~ In "-"%char ver /\ ~ In "-"%char build.
Proof.
  intros pkg plat name ver build. unfold split_pkg.
  destruct (endswith pkg tar_bz2) eqn:E; cbn [negb]; [|discriminate].
  apply endswith_iff in E. destruct E as [base ->].
  change 8 with (length tar_bz2). rewrite drop_last_app.
  destruct (unpack2 (split base "/")) as [[plat' pkg_name]|e1] eqn:E1;
    cbn [rbind]; [|discriminate].
  destruct (unpack2 (rsplit1 pkg_name "-")) as [[name_ver build']|e2] eqn:E2;
    cbn [rbind]; [|discriminate].
  destruct (unpack2 (rsplit1 name_ver "-")) as [[name' ver']|e3] eqn:E3;
    cbn [rbind]; [|discriminate].
  intros [= -> -> -> ->].
  apply unpack2_return, split_two_inv in E1. destruct E1 as (-> & Hp & Hn).
  apply unpack2_return, rsplit1_two_inv in E2. destruct E2 as (-> & Hb).
  apply unpack2_return, rsplit1_two_inv in E3. destruct E3 as (-> & Hv).
  split.
  - unfold tar_bz2. change (lit "/") with ["/"%char]. change (lit "-") with ["-"%char].
    cbn [app]. repeat (rewrite <- app_assoc || rewrite <- app_comm_cons).
    reflexivity.
  - assert (H1 : ~ In "/"%char (name ++ "-"%char :: ver)).
    { intros H. apply Hn. apply in_or_app. now left. }
    repeat split; try assumption.
    + intros H. apply H1. apply in_or_app. now left.
    + intros H. apply H1. apply in_or_app. right. now right.
    + intros H. apply Hn. apply in_or_app. right. now right.
Qed.

(** An instance of X1. *)
Lemma split_pkg_inversion_witness :
  lit "noarch/my-pkg-1.0-py_0.tar.bz2"
  = lit "noarch" ++ lit "/" ++ lit "my-pkg" ++ lit "-" ++ lit "1.0" ++ lit "-"
    ++ lit "py_0" ++ lit ".tar.bz2".
Proof.
  apply (split_pkg_inversion (lit "noarch/my-pkg-1.0-py_0.tar.bz2")
           (lit "noarch") (lit "my-pkg") (lit "1.0") (lit "py_0")).
  reflexivity.
Defined.

Lemma split_pkg_strip (base : str) :
  split_pkg (base ++ lit ".tar.bz2")
  = rbind (unpack2 (split base "/"%char)) (fun '(plat, pkg_name) =>
    rbind (unpack2 (rsplit1 pkg_name "-"%char)) (fun '(name_ver, build) =>
    rbind (unpack2 (rsplit1 name_ver "-"%char)) (fun '(name, ver) =>
    Return (plat, name, ver, build)))).
Proof.
  unfold split_pkg.
  assert (E : endswith (base ++ lit ".tar.bz2") tar_bz2 = true)
    by (apply endswith_iff; now exists base).
  rewrite E. cbn [negb]. change 8 with (length (lit ".tar.bz2")).
  now rewrite drop_last_app.
Qed.

(** X2.  A file name with fewer than two hyphens does not parse: with no
    hyphen, or with a single one, [split_pkg] raises the ValueError of an
    unpacking that got one value. *)
Theorem split_pkg_too_few_hyphens :
  forall plat a b : str,
    ~ In "/"%char plat -> ~ In "/"%char a -> ~ In "/"%char b ->
    ~ In "-"%char a -> ~ In "-"%char b ->
    split_pkg (plat ++ lit "/" ++ a ++ lit ".tar.bz2")
    = Raise (Exn ValueError (lit "not enough values to unpack (expected 2, got 1)"))
    /\ split_pkg (plat ++ lit "/" ++ a ++ lit "-" ++ b ++ lit ".tar.bz2")
       = Raise (Exn ValueError (lit "not enough values to unpack (expected 2, got 1)")).
Proof.
  intros plat a b Hp Ha Hb Ha' Hb'. split.
  - replace (plat ++ lit "/" ++ a ++ lit ".tar.bz2")
      with ((plat ++ "/"%char :: a) ++ lit ".tar.bz2")
      by (now rewrite <- app_assoc).
    rewrite split_pkg_strip, split_one_sep by assumption. cbn [unpack2 rbind].
    now rewrite rsplit1_no_sep.
  - replace (plat ++ lit "/" ++ a ++ lit "-" ++ b ++ lit ".tar.bz2")
      with ((plat ++ "/"%char :: (a ++ "-"%char :: b)) ++ lit ".tar.bz2")
      by (change (lit "/") with ["/"%char]; change (lit "-") with ["-"%char];
          cbn [app]; repeat (rewrite <- app_assoc || rewrite <- app_comm_cons);
          reflexivity).
    rewrite split_pkg_strip, split_one_sep; [|assumption|].
    + cbn [unpack2 rbind]. rewrite rsplit1_last by assumption. cbn [unpack2 rbind].
      now rewrite rsplit1_no_sep.
    + intros H. apply in_app_or in H. destruct H as [H|[H|H]];
        [tauto | discriminate | tauto].
Qed.

(** An instance of X2. *)
Lemma split_pkg_too_few_hyphens_witness :
  split_pkg (lit "noarch" ++ lit "/" ++ lit "foo" ++ lit ".tar.bz2")
  = Raise (Exn ValueError (lit "not enough values to unpack (expected 2, got 1)"))
  /\ split_pkg (lit "noarch" ++ lit "/" ++ lit "foo" ++ lit "-" ++ lit "1.0"
                ++ lit ".tar.bz2")
     = Raise (Exn ValueError (lit "not enough values to unpack (expected 2, got 1)")).
Proof.
  apply (split_pkg_too_few_hyphens (lit "noarch") (lit "foo") (lit "1.0"));
    simpl; intuition discriminate.
Defined.

Lemma unpack2_too_many (l : list str) :
  3 <= length l ->
  unpack2 l = Raise (Exn ValueError (lit "too many values to unpack (expected 2)")).
Proof.
  destruct l as [|x [|y [|z l]]]; cbn [length]; try lia. reflexivity.
Qed.

(** X3.  The path must hold exactly one slash: with none [split_pkg]
    raises "not enough values to unpack", with two or more "too many
    values to unpack", whatever the file name is. *)
Theorem split_pkg_slash_count :
  (forall base : str,
      ~ In "/"%char base ->
      split_pkg (base ++ lit ".tar.bz2")
      = Raise (Exn ValueError (lit "not enough values to unpack (expected 2, got 1)")))
  /\ (forall a b c : str,
      split_pkg (a ++ lit "/" ++ b ++ lit "/" ++ c ++ lit ".tar.bz2")
      = Raise (Exn ValueError (lit "too many values to unpack (expected 2)"))).
Proof.
  split.
  - intros base H. now rewrite split_pkg_strip, split_no_sep.
  - intros a b c.
    replace (a ++ lit "/" ++ b ++ lit "/" ++ c ++ lit ".tar.bz2")
      with ((a ++ "/"%char :: (b ++ "/"%char :: c)) ++ lit ".tar.bz2")
      by (change (lit "/") with ["/"%char]; change (lit "-") with ["-"%char];
          cbn [app]; repeat (rewrite <- app_assoc || rewrite <- app_comm_cons);
          reflexivity).
    rewrite split_pkg_strip, unpack2_too_many; [reflexivity|].
    rewrite !split_app_length.
    pose proof (split_not_nil a "/"). pose proof (split_not_nil b "/").
    pose proof (split_not_nil c "/").
    destruct (split a "/"), (split b "/"), (split c "/"); cbn [length];
      try contradiction; lia.
Qed.

(** An instance of X3. *)
Lemma split_pkg_slash_count_witness :
  split_pkg (lit "foo-1.0-0" ++ lit ".tar.bz2")
  = Raise (Exn ValueError (lit "not enough values to unpack (expected 2, got 1)")).
Proof.
  destruct split_pkg_slash_count as [H _]. apply H. simpl. intuition discriminate.
Defined.

(** X5.  Files without the archive suffix play no part in the batch: the
    parsed list is that of the listing with these files removed, so such a
    file is never parsed and cannot make the batch fail, however it is
    named. *)
Theorem built_distributions_ignores_other_files :
  forall paths : list str,
    built_distributions paths
    = built_distributions (filter (fun p => endswith p tar_bz2) paths).
Proof.
  induction paths as [|p paths IH]; [reflexivity|].
  cbn [filter built_distributions].
  destruct (endswith p tar_bz2) eqn:E; [|exact IH].
  cbn [built_distributions]. now rewrite E, IH.
Qed.

(** ** The key of the existence lookup *)

Lemma rstrip_app_sep (d : str) (c : ascii) : rstrip (d ++ [c]) c = rstrip d c.
Proof.
  induction d as [|x d IH]; cbn [app rstrip].
  - now rewrite Ascii.eqb_refl.
  - now rewrite IH.
Qed.

Lemma rstrip_ends_other (d : str) (x c : ascii) :
  x <> c -> rstrip (d ++ [x]) c = d ++ [x].
Proof.
  intros H. induction d as [|y d IH]; cbn [app rstrip].
  - apply Ascii.eqb_neq in H. now rewrite H.
  - rewrite IH. destruct (d ++ [x]) eqn:E; [|reflexivity].
    now apply app_eq_nil in E.
Qed.

Lemma path_split_no_slash (s : str) :
  ~ In "/"%char s -> path_split s = ([], s).
Proof.
  intros H. unfold path_split, sep. now rewrite rfind_no_sep.
Qed.

Lemma path_split_snd (a b : str) :
  ~ In "/"%char b -> snd (path_split (a ++ "/"%char :: b)) = b.
Proof.
  intros H. unfold path_split, sep. rewrite rfind_last by assumption. cbn [snd].
  replace (S (length a)) with (length (a ++ ["/"%char]))
    by (rewrite length_app; simpl; lia).
  replace (a ++ "/"%char :: b) with ((a ++ ["/"%char]) ++ b)
    by (now rewrite <- app_assoc).
  now rewrite skipn_app, skipn_all, Nat.sub_diag.
Qed.

Lemma path_split_dir_base (d b : str) (x : ascii) :
  ~ In "/"%char b -> x <> "/"%char ->
  path_split ((d ++ [x]) ++ "/"%char :: b) = (d ++ [x], b).
Proof.
  intros Hb Hx. unfold path_split, sep. rewrite rfind_last by assumption.
  replace (S (length (d ++ [x]))) with (length ((d ++ [x]) ++ ["/"%char]) + 0)
    by (rewrite !length_app; simpl; lia).
  replace ((d ++ [x]) ++ "/"%char :: b) with (((d ++ [x]) ++ ["/"%char]) ++ b)
    by (now rewrite <- (app_assoc (d ++ [x]))).
  rewrite firstn_app_2, Nat.add_0_r, skipn_app, skipn_all, Nat.sub_diag.
  cbn [firstn skipn]. rewrite app_nil_r. cbn [app].
  assert (E : forallb (fun c => Ascii.eqb c "/") ((d ++ [x]) ++ ["/"%char]) = false).
  { rewrite !forallb_app. cbn [forallb]. apply Ascii.eqb_neq in Hx. rewrite Hx.
    now rewrite andb_false_r. }
  rewrite E.
  destruct ((d ++ [x]) ++ ["/"%char]) eqn:E'; [now apply app_eq_nil in E'|].
  rewrite <- E'. cbn [negb andb].
  now rewrite rstrip_app_sep, rstrip_ends_other.
Qed.

Lemma built_distribution_already_exists_trace {W} (env : Env W) cli name version fname
    owner w :
  trace (built_distribution_already_exists env cli name version fname owner w)
  = [EvDistribution owner name version (distro_name_of fname)].
Proof.
  unfold built_distribution_already_exists, distro_name_of.
  destruct (path_split fname) as [folder basename]. cbn [fst snd].
  destruct (path_split folder) as [f' platform]. cbn [fst snd].
  unfold bind, try, call.
  destruct (distribution env cli owner name version (platform ++ lit "/" ++ basename) w)
    as [[d|e] w1]; [reflexivity|].
  now destruct (is_NotFound e).
Qed.

(** X4.  The lookup is made under [platform/filename], the platform being
    the last directory of the path and nothing before it: the relative
    path [plat/base] that the batch builds is looked up as it is, and a
    longer path [pre/plat/base] under the same key. *)
Theorem lookup_key_is_platform_and_file :
  forall (W : Type) (env : Env W) (cli : Binstar) (name version owner : str) (w : W)
         (pre plat base : str),
    plat <> [] -> ~ In "/"%char plat -> ~ In "/"%char base ->
    trace (built_distribution_already_exists env cli name version
             (plat ++ lit "/" ++ base) owner w)
    = [EvDistribution owner name version (plat ++ lit "/" ++ base)]
    /\ trace (built_distribution_already_exists env cli name version
                (pre ++ lit "/" ++ plat ++ lit "/" ++ base) owner w)
       = [EvDistribution owner name version (plat ++ lit "/" ++ base)].
Proof.
  intros W env cli name version owner w pre plat base Hne Hp Hb.
  destruct (exists_last Hne) as (plat' & x & ->).
  assert (Hx : x <> "/"%char).
  { intros ->. apply Hp. apply in_or_app. right. now left. }
  rewrite !built_distribution_already_exists_trace. unfold distro_name_of.
  change (lit "/") with ["/"%char]. cbn [app]. split.
  - rewrite path_split_dir_base by assumption. cbn [fst snd].
    now rewrite path_split_no_slash.
  - replace (pre ++ "/"%char :: (plat' ++ [x]) ++ "/"%char :: base)
      with (((pre ++ "/"%char :: plat') ++ [x]) ++ "/"%char :: base)
      by (repeat (rewrite <- app_assoc || rewrite <- app_comm_cons); reflexivity).
    rewrite path_split_dir_base by assumption. cbn [fst snd].
    replace ((pre ++ "/"%char :: plat') ++ [x]) with (pre ++ "/"%char :: (plat' ++ [x]))
      by (repeat (rewrite <- app_assoc || rewrite <- app_comm_cons); reflexivity).
    now rewrite path_split_snd.
Qed.

(** An instance of X4. *)
Lemma lookup_key_is_platform_and_file_witness :
  trace (built_distribution_already_exists (sim_env [] [] true up)
           {| cli_token := None |} (lit "bar") (lit "2.0")
           (lit "/opt/conda-bld" ++ lit "/" ++ lit "linux-64" ++ lit "/"
            ++ lit "bar-2.0-0.tar.bz2") (lit "me") (sim0 []))
  = [EvDistribution (lit "me") (lit "bar") (lit "2.0")
       (lit "linux-64" ++ lit "/" ++ lit "bar-2.0-0.tar.bz2")].
Proof.
  apply (lookup_key_is_platform_and_file sim (sim_env [] [] true up)
           {| cli_token := None |} (lit "bar") (lit "2.0") (lit "me") (sim0 [])
           (lit "/opt/conda-bld") (lit "linux-64") (lit "bar-2.0-0.tar.bz2"));
    simpl; intuition discriminate.
Defined.

(** ** Failures before the first lookup *)

(** X10.  When one of the two build directories cannot be listed, the
    batch raises the exception of [os.listdir] at once: the client has
    been created, and nothing is parsed, looked up, printed or
    uploaded. *)
Theorem listing_failure_aborts_batch :
  forall (W : Type) (env : Env W) (os_environ : environ)
         (recipe_dir owner channel : str) (variant : list str)
         (w w1 : W) (cli : Binstar),
    get_server_api env (resolve_token os_environ) w = (Return cli, w1) ->
    (forall e w2,
        listdir env (path_join (croot env) (lit "noarch")) w1 = (Raise e, w2) ->
        upload_or_check env os_environ recipe_dir owner channel variant w
        = (Raise e, w2,
           [EvGetServerApi (resolve_token os_environ);
            EvListdir (path_join (croot env) (lit "noarch"))]))
    /\ (forall l1 e w2 w3,
        listdir env (path_join (croot env) (lit "noarch")) w1 = (Return l1, w2) ->
        listdir env (path_join (croot env) (subdir env)) w2 = (Raise e, w3) ->
        upload_or_check env os_environ recipe_dir owner channel variant w
        = (Raise e, w3,
           [EvGetServerApi (resolve_token os_environ);
            EvListdir (path_join (croot env) (lit "noarch"));
            EvListdir (path_join (croot env) (subdir env))])).
Proof.
  intros W env os_environ recipe_dir owner channel variant w w1 cli Ha. split.
  - intros e w2 H1. unfold upload_or_check, classify, partition_distributions,
      bind, call. now rewrite Ha, H1.
  - intros l1 e w2 w3 H1 H2. unfold upload_or_check, classify, partition_distributions,
      bind, call. now rewrite Ha, H1, H2.
Qed.

(** An instance of X10: a build root where the simulated world knows no
    [win-64] directory. *)
Lemma listing_failure_aborts_batch_witness :
  let env := {| croot := lit "/opt/conda-bld"; subdir := lit "win-64";
                get_server_api := get_server_api (sim_env [] [] true up);
                distribution := distribution (sim_env [] [] true up);
                listdir := listdir (sim_env [] [] true up);
                mkdtemp := mkdtemp (sim_env [] [] true up);
                open_w := open_w (sim_env [] [] true up);
                fh_write := fh_write (sim_env [] [] true up);
                rmtree := rmtree (sim_env [] [] true up);
                check_call := check_call (sim_env [] [] true up);
                sleep := sleep (sim_env [] [] true up) |} in
  upload_or_check env [] (lit "recipe") (lit "me") (lit "main") [] (sim0 [])
  = (Raise (Exn OSError (lit "No such file or directory")), sim0 [],
     [EvGetServerApi None; EvListdir (lit "/opt/conda-bld/noarch");
      EvListdir (lit "/opt/conda-bld/win-64")]).
Proof.
  intros env.
  destruct (listing_failure_aborts_batch sim env [] (lit "recipe") (lit "me") (lit "main")
              [] (sim0 []) (sim0 []) {| cli_token := None |} eq_refl) as [_ H].
  apply (H [] (Exn OSError (lit "No such file or directory")) (sim0 []) (sim0 []));
    reflexivity.
Defined.

(** X11.  All names are parsed before the first lookup: when one listed
    file with the archive suffix does not parse, the batch raises a
    ValueError right after the two listings, and no artifact of that
    listing, well named or not, is looked up or uploaded. *)
Theorem malformed_name_blocks_the_batch :
  forall (W : Type) (env : Env W) (os_environ : environ)
         (recipe_dir owner channel : str) (variant : list str)
         (w w1 w2 w3 : W) (cli : Binstar) (l1 l2 : list str),
    get_server_api env (resolve_token os_environ) w = (Return cli, w1) ->
    listdir env (path_join (croot env) (lit "noarch")) w1 = (Return l1, w2) ->
    listdir env (path_join (croot env) (subdir env)) w2 = (Return l2, w3) ->
    (exists p e,
        In p (map (fun p => path_join (lit "noarch") p) l1
              ++ map (fun p => path_join (subdir env) p) l2)
        /\ endswith p tar_bz2 = true /\ split_pkg p = Raise e) ->
    exists e,
      exn_cls e = ValueError
      /\ upload_or_check env os_environ recipe_dir owner channel variant w
         = (Raise e, w3,
            [EvGetServerApi (resolve_token os_environ);
             EvListdir (path_join (croot env) (lit "noarch"));
             EvListdir (path_join (croot env) (subdir env))]).
Proof.
  intros W env os_environ recipe_dir owner channel variant w w1 w2 w3 cli l1 l2
         Ha H1 H2 Hbad.
  apply built_distributions_malformed in Hbad. destruct Hbad as (e & Hb & Hc).
  exists e. split; [assumption|].
  unfold upload_or_check, classify, partition_distributions, bind, call, lift.
  now rewrite Ha, H1, H2, Hb.
Qed.

(** An instance of X11: a well-named artifact next to [foo.tar.bz2]. *)
Lemma malformed_name_blocks_the_batch_witness :
  exists e,
    exn_cls e = ValueError
    /\ upload_or_check (sim_env [] [lit "bar-2.0-0.tar.bz2"; lit "foo.tar.bz2"] true up)
         (with_token (lit "secret")) (lit "recipe") (lit "me") (lit "main") [] (sim0 [])
       = (Raise e, sim0 [],
          [EvGetServerApi (Some (lit "secret")); EvListdir (lit "/opt/conda-bld/noarch");
           EvListdir (lit "/opt/conda-bld/linux-64")]).
Proof.
  apply (malformed_name_blocks_the_batch sim
           (sim_env [] [lit "bar-2.0-0.tar.bz2"; lit "foo.tar.bz2"] true up)
           (with_token (lit "secret")) (lit "recipe") (lit "me") (lit "main") []
           (sim0 []) (sim0 []) (sim0 []) (sim0 [])
           {| cli_token := Some (lit "secret") |} []
           [lit "bar-2.0-0.tar.bz2"; lit "foo.tar.bz2"] eq_refl eq_refl eq_refl).
  exists (lit "linux-64/foo.tar.bz2"),
    (Exn ValueError (lit "not enough values to unpack (expected 2, got 1)")).
  split; [right; now left | split; reflexivity].
Defined.

(** ** More on the retry wrapper *)

(** X12.  The wrapper retries [Exception]s only: when the batch raises
    something else (a KeyboardInterrupt, a SystemExit), the run is that one
    call of the batch, with its exception, and no message, sleep or second
    call. *)
Theorem retry_lets_non_exceptions_through :
  forall (W : Type) (env : Env W) (os_environ : environ)
         (recipe_dir owner channel : str) (variant : list str) (w : W) (e : exn),
    outcome (upload_or_check env os_environ recipe_dir owner channel variant w) = Raise e ->
    is_Exception e = false ->
    retry_upload_or_check env os_environ recipe_dir owner channel variant w
    = upload_or_check env os_environ recipe_dir owner channel variant w.
Proof.
  intros W env os_environ recipe_dir owner channel variant w e H He.
  unfold retry_upload_or_check. cbn [seq]. rewrite retry_loop_cons.
  unfold outcome in H.
  destruct (upload_or_check env os_environ recipe_dir owner channel variant w)
    as [[r w1] t1]. cbn [fst] in H. subst r. now rewrite He.
Qed.

(** An instance of X12: the lookup is interrupted from the keyboard. *)
Lemma retry_lets_non_exceptions_through_witness :
  let env := sim_env [] [lit "bar-2.0-0.tar.bz2"] true (down (Exn KeyboardInterrupt [])) in
  retry_upload_or_check env [] (lit "recipe") (lit "me") (lit "main") [] (sim0 [])
  = upload_or_check env [] (lit "recipe") (lit "me") (lit "main") [] (sim0 []).
Proof.
  intros env.
  apply (retry_lets_non_exceptions_through sim env [] (lit "recipe") (lit "me")
           (lit "main") [] (sim0 []) (Exn KeyboardInterrupt [])); reflexivity.
Defined.

Lemma retry_loop_raises {W} (env : Env W) os_environ recipe_dir owner channel variant :
  forall attempts w e,
    outcome (retry_loop env os_environ attempts recipe_dir owner channel variant w)
    = Raise e ->
    e = timeout_error \/ is_Exception e = false.
Proof.
  induction attempts as [|i rest IH]; intros w e.
  - rewrite retry_loop_nil. intros [= <-]. now left.
  - rewrite retry_loop_cons.
    destruct (upload_or_check env os_environ recipe_dir owner channel variant w)
      as [[[res|e'] w1] t1]; [discriminate|].
    destruct (is_Exception e') eqn:E.
    + cbn zeta. unfold outcome at 1. cbn [fst]. apply IH.
    + intros [= <-]. now right.
Qed.

(** X13.  No [Exception] of the batch ever leaves the wrapper: what
    [retry_upload_or_check] raises is its own TimeoutError or an exception
    that is not an [Exception]. *)
Theorem retry_never_leaks_an_exception :
  forall (W : Type) (env : Env W) (os_environ : environ)
         (recipe_dir owner channel : str) (variant : list str) (w : W) (e : exn),
    outcome (retry_upload_or_check env os_environ recipe_dir owner channel variant w)
    = Raise e ->
    e = timeout_error \/ is_Exception e = false.
Proof.
  intros W env os_environ recipe_dir owner channel variant w e.
  apply retry_loop_raises.
Qed.

(** An instance of X13: every upload fails with CalledProcessError, and
    the run ends with the TimeoutError. *)
Lemma retry_never_leaks_an_exception_witness :
  outcome (retry_upload_or_check (sim_env [] [lit "bar-2.0-0.tar.bz2"] false up)
             (with_token (lit "secret")) (lit "recipe") (lit "me") (lit "main") []
             (sim0 []))
  = Raise timeout_error
  /\ (timeout_error = timeout_error \/ is_Exception timeout_error = false).
Proof.
  split; [reflexivity|].
  apply (retry_never_leaks_an_exception sim
           (sim_env [] [lit "bar-2.0-0.tar.bz2"] false up)
           (with_token (lit "secret")) (lit "recipe") (lit "me") (lit "main") []
           (sim0 []) timeout_error).
  reflexivity.
Defined.

Lemma retry_loop_schedule {W} (env : Env W) os_environ recipe_dir owner channel variant :
  forall n i w,
    let run := retry_loop env os_environ (seq i n) recipe_dir owner channel variant w in
    exists k,
      sleeps (trace run) = map (fun j => j ^ 2) (seq i k)
      /\ ((k = n /\ calls (trace run) = n /\ outcome run = Raise timeout_error)
          \/ (k < n /\ calls (trace run) = k + 1)).
Proof.
  induction n as [|n IH]; intros i w run; subst run.
  - exists 0. cbn [seq]. rewrite retry_loop_nil. split; [reflexivity|]. now left.
  - cbn [seq]. rewrite retry_loop_cons.
    pose proof (upload_or_check_trace env os_environ recipe_dir owner channel variant w)
      as [Hc Hs].
    destruct (upload_or_check env os_environ recipe_dir owner channel variant w)
      as [[[res|e] w1] t1]; unfold trace in Hc, Hs; cbn [snd] in Hc, Hs.
    + exists 0. unfold trace. cbn [snd seq map]. split; [assumption|].
      right. split; [lia | assumption].
    + destruct (is_Exception e).
      * destruct (IH (S i) (sleep env (i ^ 2) w1)) as (k & Hk & Hcase).
        cbn zeta in Hk, Hcase. exists (S k). cbn zeta.
        unfold outcome, trace in *. cbn [fst snd] in *.
        rewrite sleeps_app, calls_app, Hs, Hc. cbn [app sleeps seq map].
        unfold calls in *. cbn [filter is_get_server_api].
        split; [now rewrite Hk|].
        destruct Hcase as [(-> & H1 & H2)|(H1 & H2)]; [left | right].
        -- repeat split; [lia | assumption].
        -- split; lia.
      * exists 0. unfold trace. cbn [snd seq map]. split; [assumption|].
        right. split; [lia | assumption].
Qed.

(** X14.  In every run the sleeps are the first [k] of 1, 4, 9, ..., 81:
    no sleep is repeated, skipped or longer than 81 seconds.  Either all 9
    calls failed ([k = 9], the run ends with the TimeoutError) or the run
    ended in call [k + 1]. *)
Theorem retry_backoff_schedule :
  forall (W : Type) (env : Env W) (os_environ : environ)
         (recipe_dir owner channel : str) (variant : list str) (w : W),
    let run := retry_upload_or_check env os_environ recipe_dir owner channel variant w in
    exists k,
      sleeps (trace run) = map (fun j => j ^ 2) (seq 1 k)
      /\ ((k = 9 /\ calls (trace run) = 9 /\ outcome run = Raise timeout_error)
          \/ (k < 9 /\ calls (trace run) = k + 1)).
Proof.
  intros W env os_environ recipe_dir owner channel variant w.
  apply (retry_loop_schedule env os_environ recipe_dir owner channel variant 9 1 w).
Qed.

(** ** The token handed to the client *)

Lemma resolve_token_not_placeholder (os_environ : environ) (s : str) :
  resolve_token os_environ = Some s -> startswith s (lit "$(") = false.
Proof.
  unfold resolve_token.
  destruct (environ_get os_environ (lit "BINSTAR_TOKEN")) as [[|c t]|];
    cbn [truthy andb]; [now intros [= <-] | | discriminate].
  destruct (startswith (c :: t) (lit "$(")) eqn:E; [discriminate|].
  now intros [= <-].
Qed.

Lemma emits_upload_or_check {W} (P : event -> Prop) (env : Env W) os_environ recipe_dir
    owner channel variant :
  P (EvGetServerApi (resolve_token os_environ)) ->
  (forall ev, is_get_server_api ev = false -> P ev) ->
  emits P (upload_or_check env os_environ recipe_dir owner channel variant).
Proof.
  intros Ha Hp. unfold upload_or_check.
  apply emits_bind.
  - apply emits_classify; [assumption| | |]; intros; now apply Hp.
  - intros [[cli existing] new].
    apply emits_upload_or_skip; [intros; now apply Hp|].
    intros _. repeat split; intros; now apply Hp.
Qed.

Lemma emits_retry_loop {W} (P : event -> Prop) (env : Env W) os_environ recipe_dir
    owner channel variant attempts :
  P (EvGetServerApi (resolve_token os_environ)) ->
  (forall ev, is_get_server_api ev = false -> P ev) ->
  emits P (retry_loop env os_environ attempts recipe_dir owner channel variant).
Proof.
  intros Ha Hp. induction attempts as [|i rest IH]; cbn [retry_loop].
  - apply emits_raise.
  - apply emits_bind; [now apply emits_try, emits_upload_or_check|].
    intros [res|e]; [apply emits_ret|].
    destruct (is_Exception e); [|apply emits_raise].
    apply emits_bind; [now apply emits_print, Hp|]. intros _.
    apply emits_bind; [|intros _; exact IH].
    intros w. cbn. repeat constructor. now apply Hp.
Qed.

(** X16.  Whatever BINSTAR_TOKEN holds, in no call of a run is the client
    created with a token that starts with the placeholder marker. *)
Theorem client_never_gets_a_placeholder :
  forall (W : Type) (env : Env W) (os_environ : environ)
         (recipe_dir owner channel : str) (variant : list str) (w : W) (s : str),
    In (EvGetServerApi (Some s))
       (trace (retry_upload_or_check env os_environ recipe_dir owner channel variant w)) ->
    startswith s (lit "$(") = false.
Proof.
  intros W env os_environ recipe_dir owner channel variant w s H.
  assert (E : emits no_placeholder
                (retry_upload_or_check env os_environ recipe_dir owner channel variant)).
  { apply emits_retry_loop.
    - intros s' [= Hs]. now apply (resolve_token_not_placeholder os_environ).
    - intros ev Hev s' ->. discriminate Hev. }
  specialize (E w). rewrite Forall_forall in E. now apply (E _ H).
Qed.

(** An instance of X16: a real token reaches the client unchanged. *)
Lemma client_never_gets_a_placeholder_witness :
  startswith (lit "secret") (lit "$(") = false.
Proof.
  apply (client_never_gets_a_placeholder sim (sim_env [] [] true up)
           (with_token (lit "secret")) (lit "recipe") (lit "me") (lit "main") []
           (sim0 []) (lit "secret")).
  now left.
Defined.

(** ** The upload loop *)

Lemma uploads_app (t1 t2 : list event) : uploads (t1 ++ t2) = uploads t1 ++ uploads t2.
Proof.
  induction t1 as [|ev t1 IH]; [reflexivity|].
  destruct ev; cbn [app uploads]; now rewrite IH.
Qed.

Lemma uploads_upload_events (fn owner channel : str) (paths : list str) :
  uploads (upload_events fn owner channel paths) = paths.
Proof.
  induction paths as [|p paths IH]; [reflexivity|].
  cbn [upload_events flat_map app uploads]. fold (upload_events fn owner channel paths).
  now rewrite IH.
Qed.

Lemma printed_upload_events (fn owner channel : str) (paths : list str) :
  printed (upload_events fn owner channel paths) = map uploaded_msg paths.
Proof.
  induction paths as [|p paths IH]; [reflexivity|].
  cbn [upload_events flat_map app printed map]. fold (upload_events fn owner channel paths).
  now rewrite IH.
Qed.

Lemma upload_loop_cons {W} (env : Env W) os_environ (fn owner channel path : str)
    (rest : list str) w :
  for_each (path :: rest)
    (fun path => bind (upload env os_environ fn path owner channel)
                      (fun _ => print (uploaded_msg path))) w
  = match check_call env (upload_argv fn path owner channel) os_environ w with
    | (Return _, w1) =>
        let r := for_each rest
                   (fun path => bind (upload env os_environ fn path owner channel)
                                     (fun _ => print (uploaded_msg path))) w1 in
        (outcome r, final r,
         EvCheckCall (upload_argv fn path owner channel)
           :: EvPrint (uploaded_msg path) :: trace r)
    | (Raise e, w1) => (Raise e, w1, [EvCheckCall (upload_argv fn path owner channel)])
    end.
Proof.
  cbn [for_each]. unfold bind at 1 2, upload, call, print. cbv beta zeta.
  destruct (check_call env (upload_argv fn path owner channel) os_environ w)
    as [[u|e] w1]; [|reflexivity].
  now destruct (for_each rest _ w1) as [[r w2] t2].
Qed.

Lemma upload_loop_stops {W} (env : Env W) os_environ (fn owner channel p : str)
    (pre post : list str) (e : exn) :
  (forall q w', In q pre ->
      exists w'', check_call env (upload_argv fn q owner channel) os_environ w'
                  = (Return tt, w'')) ->
  (forall w', exists w'',
      check_call env (upload_argv fn p owner channel) os_environ w' = (Raise e, w'')) ->
  forall w, exists w',
    for_each (pre ++ p :: post)
      (fun path => bind (upload env os_environ fn path owner channel)
                        (fun _ => print (uploaded_msg path))) w
    = (Raise e, w',
       upload_events fn owner channel pre
       ++ [EvCheckCall (upload_argv fn p owner channel)]).
Proof.
  intros Hpre Hp. induction pre as [|q pre IH]; intros w; cbn [app].
  - rewrite upload_loop_cons. destruct (Hp w) as (w'' & ->). now exists w''.
  - rewrite upload_loop_cons.
    destruct (Hpre q w (or_introl eq_refl)) as (w1 & ->).
    destruct (IH (fun q' w' H => Hpre q' w' (or_intror H)) w1) as (w' & ->).
    exists w'. reflexivity.
Qed.

Lemma upload_loop_completes {W} (env : Env W) os_environ (fn owner channel : str)
    (new : list str) :
  (forall q w', In q new ->
      exists w'', check_call env (upload_argv fn q owner channel) os_environ w'
                  = (Return tt, w'')) ->
  forall w, exists w',
    for_each new
      (fun path => bind (upload env os_environ fn path owner channel)
                        (fun _ => print (uploaded_msg path))) w
    = (Return tt, w', upload_events fn owner channel new).
Proof.
  intros Hnew. induction new as [|q new IH]; intros w.
  - now exists w.
  - rewrite upload_loop_cons.
    destruct (Hnew q w (or_introl eq_refl)) as (w1 & ->).
    destruct (IH (fun q' w' H => Hnew q' w' (or_intror H)) w1) as (w' & ->).
    exists w'. reflexivity.
Qed.

(** X8.  With a token, when the credential file can be written and every
    [anaconda upload] succeeds: the directory and the token file are
    created once, before the first upload, every new artifact is uploaded
    once, in order, with that one token file, each upload being followed
    by its "Uploaded" line, the directory is removed after the last one,
    and the batch returns [True]. *)
Theorem upload_all_new :
  forall (W : Type) (env : Env W) (os_environ : environ) (token : option str)
         (cli : Binstar) (t : str) (new : list str) (owner channel : str)
         (w w1 w2 w3 : W) (dn : str),
    truthy token = true ->
    cli_token cli = Some t ->
    mkdtemp env w = (Return dn, w1) ->
    let fn := path_join dn (lit "binstar.token") in
    open_w env fn w1 = (Return tt, w2) ->
    fh_write env fn t w2 = (Return tt, w3) ->
    (forall q w', In q new ->
        exists w'', check_call env (upload_argv fn q owner channel) os_environ w'
                    = (Return tt, w'')) ->
    (forall w', exists w'', rmtree env dn w' = (Return tt, w'')) ->
    let run := upload_or_skip env os_environ token cli new owner channel w in
    outcome run = Return true
    /\ trace run = [EvMkdtemp; EvOpenW fn; EvWrite fn t]
                   ++ upload_events fn owner channel new ++ [EvRmtree dn]
    /\ uploads (trace run) = new
    /\ printed (trace run) = map uploaded_msg new.
Proof.
  intros W env os_environ token cli t new owner channel w w1 w2 w3 dn Ht Hc H1 fn H2 H3
         Hup Hrm run.
  destruct (upload_loop_completes env os_environ fn owner channel new Hup w3)
    as (w4 & Hloop).
  destruct (Hrm w4) as (w5 & Hrm4).
  assert (E : run = (Return true, w5,
                     [EvMkdtemp; EvOpenW fn; EvWrite fn t]
                     ++ upload_events fn owner channel new ++ [EvRmtree dn])).
  { subst run. unfold upload_or_skip. rewrite Ht, Hc.
    rewrite (bind_return _ _ w tt w5
               ([EvMkdtemp; EvOpenW fn; EvWrite fn t]
                ++ upload_events fn owner channel new ++ [EvRmtree dn])).
    - unfold ret, outcome, final, trace. cbn [fst snd]. now rewrite app_nil_r.
    - rewrite (get_temp_token_body_returns env t _ w dn w1 w2 w3 tt w4
                 (upload_events fn owner channel new) H1 H2 H3 Hloop).
      now rewrite Hrm4. }
  rewrite E. unfold outcome, trace. cbn [fst snd].
  split; [reflexivity|]. split; [reflexivity|].
  rewrite !uploads_app, !printed_app, uploads_upload_events, printed_upload_events.
  cbn [uploads printed app]. now rewrite !app_nil_r.
Qed.

(** An instance of X8: two new artifacts. *)
Lemma upload_all_new_witness :
  let run := upload_or_skip (sim_env [] [] true up) (with_token (lit "secret"))
               (Some (lit "secret")) {| cli_token := Some (lit "secret") |}
               [lit "noarch/foo-1.0-0.tar.bz2"; lit "linux-64/bar-2.0-0.tar.bz2"]
               (lit "me") (lit "main") (sim0 []) in
  outcome run = Return true
  /\ uploads (trace run) = [lit "noarch/foo-1.0-0.tar.bz2"; lit "linux-64/bar-2.0-0.tar.bz2"]
  /\ length (filter is_mkdtemp (trace run)) = 1.
Proof.
  intros run.
  destruct (upload_all_new sim (sim_env [] [] true up) (with_token (lit "secret"))
              (Some (lit "secret")) {| cli_token := Some (lit "secret") |} (lit "secret")
              [lit "noarch/foo-1.0-0.tar.bz2"; lit "linux-64/bar-2.0-0.tar.bz2"]
              (lit "me") (lit "main") (sim0 [])
              {| remote := []; tmpdirs := [lit "/tmp/tmp0"]; slept := 0 |}
              {| remote := []; tmpdirs := [lit "/tmp/tmp0"]; slept := 0 |}
              {| remote := []; tmpdirs := [lit "/tmp/tmp0"]; slept := 0 |}
              (lit "/tmp/tmp0") eq_refl eq_refl eq_refl eq_refl eq_refl)
    as (H1 & H2 & H3 & _).
  - intros q w' _. eexists. reflexivity.
  - intros w'. eexists. reflexivity.
  - split; [exact H1|]. split; [exact H3|]. subst run. now rewrite H2.
Defined.

(** X9.  The upload loop stops at the first [anaconda upload] that fails:
    the artifacts before it have been uploaded and announced, the failing
    one has been tried once, its exception leaves the batch, and no
    artifact behind it is tried in this call of the batch. *)
Theorem upload_stops_at_first_failure :
  forall (W : Type) (env : Env W) (os_environ : environ) (token : option str)
         (cli : Binstar) (t : str) (pre post : list str) (p owner channel : str)
         (w w1 w2 w3 : W) (dn : str) (e : exn),
    truthy token = true ->
    cli_token cli = Some t ->
    mkdtemp env w = (Return dn, w1) ->
    let fn := path_join dn (lit "binstar.token") in
    open_w env fn w1 = (Return tt, w2) ->
    fh_write env fn t w2 = (Return tt, w3) ->
    (forall q w', In q pre ->
        exists w'', check_call env (upload_argv fn q owner channel) os_environ w'
                    = (Return tt, w'')) ->
    (forall w', exists w'',
        check_call env (upload_argv fn p owner channel) os_environ w' = (Raise e, w'')) ->
    let run := upload_or_skip env os_environ token cli (pre ++ p :: post) owner channel w in
    outcome run = Raise e
    /\ uploads (trace run) = pre ++ [p]
    /\ printed (trace run) = map uploaded_msg pre.
Proof.
  intros W env os_environ token cli t pre post p owner channel w w1 w2 w3 dn e Ht Hc H1
         fn H2 H3 Hpre Hp run.
  destruct (upload_loop_stops env os_environ fn owner channel p pre post e Hpre Hp w3)
    as (w4 & Hloop).
  assert (E : run = (Raise e, w4,
                     [EvMkdtemp; EvOpenW fn; EvWrite fn t]
                     ++ upload_events fn owner channel pre
                     ++ [EvCheckCall (upload_argv fn p owner channel)])).
  { subst run. unfold upload_or_skip. rewrite Ht, Hc.
    apply bind_raise.
    apply (get_temp_token_body_raises env t _ w dn w1 w2 w3 e w4 _ H1 H2 H3 Hloop). }
  rewrite E. unfold outcome, trace. cbn [fst snd]. split; [reflexivity|].
  rewrite !uploads_app, !printed_app, uploads_upload_events, printed_upload_events.
  cbn [uploads printed app upload_argv nth]. now rewrite !app_nil_r.
Qed.

(** An instance of X9: the second of three new artifacts is refused. *)
Lemma upload_stops_at_first_failure_witness :
  let run := upload_or_skip (sim_env_rejecting (lit "linux-64/bad-1.0-0.tar.bz2") [] [])
               (with_token (lit "secret"))
               (Some (lit "secret")) {| cli_token := Some (lit "secret") |}
               ([lit "linux-64/a-1.0-0.tar.bz2"]
                ++ lit "linux-64/bad-1.0-0.tar.bz2" :: [lit "linux-64/c-1.0-0.tar.bz2"])
               (lit "me") (lit "main") (sim0 []) in
  outcome run = Raise (Exn CalledProcessError (lit "returned non-zero exit status 1"))
  /\ uploads (trace run)
     = [lit "linux-64/a-1.0-0.tar.bz2"] ++ [lit "linux-64/bad-1.0-0.tar.bz2"]
  /\ printed (trace run) = map uploaded_msg [lit "linux-64/a-1.0-0.tar.bz2"].
Proof.
  apply (upload_stops_at_first_failure sim
           (sim_env_rejecting (lit "linux-64/bad-1.0-0.tar.bz2") [] [])
           (with_token (lit "secret"))
           (Some (lit "secret")) {| cli_token := Some (lit "secret") |} (lit "secret")
           [lit "linux-64/a-1.0-0.tar.bz2"] [lit "linux-64/c-1.0-0.tar.bz2"]
           (lit "linux-64/bad-1.0-0.tar.bz2") (lit "me") (lit "main") (sim0 [])
           {| remote := []; tmpdirs := [lit "/tmp/tmp0"]; slept := 0 |}
           {| remote := []; tmpdirs := [lit "/tmp/tmp0"]; slept := 0 |}
           {| remote := []; tmpdirs := [lit "/tmp/tmp0"]; slept := 0 |}
           (lit "/tmp/tmp0") (Exn CalledProcessError (lit "returned non-zero exit status 1"))
           eq_refl eq_refl eq_refl eq_refl eq_refl).
  - intros q w' [<-|[]]. eexists. reflexivity.
  - intros w'. eexists. reflexivity.
Defined.

(** ** Classification by the answers of the API *)

Lemma filterM_pred {W A} (Inv : W -> Prop) (cond : A -> M W bool) (f : A -> bool)
    (l : list A) :
  (forall x, In x l -> forall w, Inv w ->
             outcome (cond x w) = Return (f x) /\ Inv (final (cond x w))) ->
  forall w, Inv w ->
    outcome (filterM cond l w) = Return (filter f l)
    /\ Inv (final (filterM cond l w)).
Proof.
  induction l as [|x l IH]; intros H w Hw; [now split|].
  cbn [filterM filter].
  destruct (H x (or_introl eq_refl) w Hw) as [Hx Hi].
  destruct (IH (fun y Hy => H y (or_intror Hy)) _ Hi) as [Hl Hi'].
  rewrite (outcome_bind _ _ _ _ Hx), (final_bind _ _ _ _ Hx).
  rewrite (outcome_bind _ _ _ _ Hl), (final_bind _ _ _ _ Hl).
  split; [reflexivity | exact Hi'].
Qed.

Lemma built_distribution_already_exists_answer {W} (env : Env W) cli name version
    fname owner w r w' b :
  distribution env cli owner name version (distro_name_of fname) w = (r, w') ->
  lookup_answer r = Some b ->
  outcome (built_distribution_already_exists env cli name version fname owner w)
  = Return b
  /\ final (built_distribution_already_exists env cli name version fname owner w) = w'.
Proof.
  intros H Hb. unfold built_distribution_already_exists, distro_name_of in *.
  destruct (path_split fname) as [folder basename]. cbn [fst snd] in H.
  destruct (path_split folder) as [f' platform]. cbn [fst snd] in H.
  unfold bind, try, call. rewrite H.
  destruct r as [d|e]; cbn [lookup_answer] in Hb.
  - injection Hb as <-. now split.
  - destruct (is_NotFound e); [|discriminate]. injection Hb as <-. now split.
Qed.

Lemma filter_map_path (f : str -> bool) (built : list (str * str * str)) :
  map (fun '(_, _, path) => path) (filter (fun '(_, _, path) => f path) built)
  = filter f (map (fun '(_, _, path) => path) built).
Proof.
  induction built as [|[[n v] p] built IH]; [reflexivity|].
  cbn [filter map]. destruct (f p); cbn [map]; now rewrite IH.
Qed.

Lemma final_for_each_print {W A} (f : A -> str) (l : list A) (w : W) :
  outcome (for_each l (fun x => print (f x)) w) = Return tt
  /\ final (for_each l (fun x => print (f x)) w) = w.
Proof. rewrite for_each_print. now split. Qed.

(** The two passes of lookups under stable answers. *)
Lemma partition_distributions_by_answers {W} (env : Env W) (cli : Binstar) (owner : str)
    (w1 w2 w3 : W) (l1 l2 : list str) (Inv : W -> Prop) (present : str -> bool) :
  listdir env (path_join (croot env) (lit "noarch")) w1 = (Return l1, w2) ->
  listdir env (path_join (croot env) (subdir env)) w2 = (Return l2, w3) ->
  let paths := map (fun p => path_join (lit "noarch") p) l1
               ++ map (fun p => path_join (subdir env) p) l2 in
  let artifacts := filter (fun p => endswith p tar_bz2) paths in
  (forall p, In p artifacts -> exists t, split_pkg p = Return t) ->
  Inv w3 ->
  (forall p plat name version build w',
      In p artifacts -> split_pkg p = Return (plat, name, version, build) ->
      Inv w' ->
      exists r w'',
        distribution env cli owner name version (distro_name_of p) w' = (r, w'')
        /\ lookup_answer r = Some (present p) /\ Inv w'') ->
  outcome (partition_distributions env cli owner w1)
  = Return (filter present artifacts, filter (fun p => negb (present p)) artifacts).
Proof.
  intros E2 E3 paths artifacts Hparse Hw3 Hans.
  destruct (built_distributions_ok paths) as (built & Hb & Hm & Hin).
  { intros p Hp Hs. apply Hparse. apply filter_In. now split. }
  assert (Hlook : forall name version path w',
             In (name, version, path) built -> Inv w' ->
             outcome (built_distribution_already_exists env cli name version path owner w')
             = Return (present path)
             /\ Inv (final (built_distribution_already_exists env cli name version path
                              owner w'))).
  { intros n v p w' Hp Hw'. destruct (Hin _ _ _ Hp) as (Hs & Hpp & plat & build & Hsp).
    destruct (Hans p plat n v build w') as (r & w'' & Hd & Hr & Hi); try assumption.
    { apply filter_In. now split. }
    destruct (built_distribution_already_exists_answer env cli n v p owner w' r w''
                (present p) Hd Hr) as [-> ->].
    now split. }
  unfold partition_distributions.
  destruct (outcome_call (EvListdir (path_join (croot env) (lit "noarch")))
              (listdir env (path_join (croot env) (lit "noarch"))) w1) as [O2 F2].
  rewrite E2 in O2, F2. rewrite (outcome_bind _ _ _ _ O2), F2. cbn [snd].
  destruct (outcome_call (EvListdir (path_join (croot env) (subdir env)))
              (listdir env (path_join (croot env) (subdir env))) w2) as [O3 F3].
  rewrite E3 in O3, F3. rewrite (outcome_bind _ _ _ _ O3), F3. cbn [snd].
  fold paths. rewrite (outcome_bind _ _ _ built) by (unfold lift, outcome; now rewrite Hb).
  change (final (lift (built_distributions paths) w3)) with w3.
  destruct (filterM_pred Inv
              (fun '(name, version, path) =>
                 built_distribution_already_exists env cli name version path owner)
              (fun '(_, _, path) => present path)
              built) with (w := w3) as [P1 I1]; [|assumption|].
  { intros [[n v] p] Hp w' Hw'. now apply Hlook. }
  rewrite (outcome_bind _ _ _ _ P1).
  match goal with
  | |- context [bind (for_each ?l _) _ ?w0] =>
      destruct (final_for_each_print (exists_msg owner) l w0) as [P2 F]
  end.
  rewrite (outcome_bind _ _ _ _ P2), F.
  destruct (filterM_pred Inv
              (fun '(name, version, path) =>
                 bind (built_distribution_already_exists env cli name version path owner)
                      (fun b => ret (negb b)))
              (fun '(_, _, path) => negb (present path))
              built) with (w := final (filterM
                (fun '(name, version, path) =>
                   built_distribution_already_exists env cli name version path owner)
                built w3)) as [P3 I3]; [|assumption|].
  { intros [[n v] p] Hp w' Hw'. destruct (Hlook n v p w' Hp Hw') as [Ho Hi].
    rewrite (outcome_bind _ _ _ _ Ho), (final_bind _ _ _ _ Ho). now split. }
  rewrite (outcome_bind _ _ _ _ P3).
  unfold ret, outcome. cbn [fst]. fold artifacts in Hm.
  rewrite (filter_map_path present), (filter_map_path (fun p => negb (present p))).
  now rewrite Hm.
Qed.

(** X6.  When the answers of the API are stable during the batch (every
    lookup for an artifact [p] says [present p], and [Inv] holds of the
    worlds in which the lookups are made), the two passes of lookups
    split the artifacts by these answers: the existing distributions are
    the artifacts the API knows, the new ones those it does not know, both
    in the order of the listing, [noarch] first. *)
Theorem classify_by_lookup :
  forall (W : Type) (env : Env W) (token : option str) (owner : str)
         (w w1 w2 w3 : W) (cli : Binstar) (l1 l2 : list str) (Inv : W -> Prop)
         (present : str -> bool),
    get_server_api env token w = (Return cli, w1) ->
    listdir env (path_join (croot env) (lit "noarch")) w1 = (Return l1, w2) ->
    listdir env (path_join (croot env) (subdir env)) w2 = (Return l2, w3) ->
    let paths := map (fun p => path_join (lit "noarch") p) l1
                 ++ map (fun p => path_join (subdir env) p) l2 in
    let artifacts := filter (fun p => endswith p tar_bz2) paths in
    (forall p, In p artifacts -> exists t, split_pkg p = Return t) ->
    Inv w3 ->
    (forall p plat name version build w',
        In p artifacts -> split_pkg p = Return (plat, name, version, build) ->
        Inv w' ->
        exists r w'',
          distribution env cli owner name version (distro_name_of p) w' = (r, w'')
          /\ lookup_answer r = Some (present p) /\ Inv w'') ->
    outcome (classify env token owner w)
    = Return (cli, filter present artifacts,
              filter (fun p => negb (present p)) artifacts).
Proof.
  intros W env token owner w w1 w2 w3 cli l1 l2 Inv present E1 E2 E3 paths artifacts
         Hparse Hw3 Hans.
  unfold classify.
  destruct (outcome_call (EvGetServerApi token) (get_server_api env token) w) as [O1 F1].
  rewrite E1 in O1, F1. rewrite (outcome_bind _ _ _ _ O1), F1. cbn [snd].
  rewrite (outcome_bind _ _ _ (filter present artifacts,
                               filter (fun p => negb (present p)) artifacts)).
  - reflexivity.
  - now apply (partition_distributions_by_answers env cli owner w1 w2 w3 l1 l2 Inv present).
Qed.

(** An instance of X6: of three artifacts the account holds the one of
    [noarch] and one of [linux-64]. *)
Lemma classify_by_lookup_witness :
  outcome (classify (sim_env [lit "util-0.1-py_0.tar.bz2"]
                             [lit "foo-1.0-0.tar.bz2"; lit "bar-2.0-0.tar.bz2"] true up)
                    None (lit "me")
                    (sim0 [lit "noarch/util-0.1-py_0.tar.bz2";
                           lit "linux-64/bar-2.0-0.tar.bz2"]))
  = Return ({| cli_token := None |},
            [lit "noarch/util-0.1-py_0.tar.bz2"; lit "linux-64/bar-2.0-0.tar.bz2"],
            [lit "linux-64/foo-1.0-0.tar.bz2"]).
Proof.
  pose (acct := [lit "noarch/util-0.1-py_0.tar.bz2"; lit "linux-64/bar-2.0-0.tar.bz2"]).
  apply (classify_by_lookup sim
           (sim_env [lit "util-0.1-py_0.tar.bz2"]
                    [lit "foo-1.0-0.tar.bz2"; lit "bar-2.0-0.tar.bz2"] true up)
           None (lit "me") (sim0 acct) (sim0 acct) (sim0 acct) (sim0 acct)
           {| cli_token := None |} [lit "util-0.1-py_0.tar.bz2"]
           [lit "foo-1.0-0.tar.bz2"; lit "bar-2.0-0.tar.bz2"]
           (fun w' => remote w' = acct) (fun p => mem p acct)
           eq_refl eq_refl eq_refl).
  - intros p [<-|[<-|[<-|[]]]]; eexists; reflexivity.
  - reflexivity.
  - intros p plat name version build w' Hp _ Hw'.
    cbn [sim_env distribution up]. rewrite Hw'.
    destruct Hp as [<-|[<-|[<-|[]]]]; eexists; exists w'; now repeat split.
Defined.

(** ** What the classification prints *)

Lemma bind_inv {W A B} (m : M W A) (k : A -> M W B) w b :
  outcome (bind m k w) = Return b ->
  exists a,
    outcome (m w) = Return a
    /\ outcome (k a (final (m w))) = Return b
    /\ trace (bind m k w) = trace (m w) ++ trace (k a (final (m w))).
Proof.
  unfold bind, outcome, final, trace.
  destruct (m w) as [[[a|e] w1] t1]; cbn [fst snd]; [|discriminate].
  destruct (k a w1) as [[r w2] t2] eqn:E. cbn [fst snd]. intros ->.
  exists a. now rewrite E.
Qed.

Lemma printed_none (t : list event) :
  Forall (fun ev => is_print ev = false) t -> printed t = [].
Proof.
  induction 1 as [|ev t H _ IH]; [reflexivity|].
  destruct ev; try discriminate; exact IH.
Qed.

Lemma printed_call {W A} (ev : event) (op : W -> result A * W) w :
  is_print ev = false -> printed (trace (call ev op w)) = [].
Proof.
  intros H. unfold call, trace. destruct (op w). cbn [snd].
  apply printed_none. now repeat constructor.
Qed.

Lemma partition_distributions_prints {W} (env : Env W) cli owner w existing new :
  outcome (partition_distributions env cli owner w) = Return (existing, new) ->
  printed (trace (partition_distributions env cli owner w))
  = map (exists_msg owner) existing.
Proof.
  unfold partition_distributions. intros H.
  apply bind_inv in H. destruct H as (l1 & _ & H & ->).
  apply bind_inv in H. destruct H as (l2 & _ & H & ->).
  apply bind_inv in H. destruct H as (built & _ & H & ->).
  apply bind_inv in H. destruct H as (ex & _ & H & ->).
  apply bind_inv in H. destruct H as ([] & _ & H & ->).
  apply bind_inv in H. destruct H as (nw & _ & H & ->).
  unfold ret, outcome in H. cbn [fst] in H. injection H as <- <-.
  rewrite !printed_app, !printed_call by reflexivity.
  rewrite for_each_print.
  rewrite !(printed_none (trace (filterM _ _ _))).
  - unfold trace, lift, ret. cbn [snd printed app].
    now rewrite printed_map_print, app_nil_r.
  - apply emits_filterM. intros [[n v] p].
    apply emits_bind; [now apply emits_built_distribution_already_exists|].
    intros b. apply emits_ret.
  - apply emits_filterM. intros [[n v] p].
    now apply emits_built_distribution_already_exists.
Qed.

(** X7.  A classification that completes has printed one "already
    exists" line for each existing distribution, in order, and nothing
    else; the new distributions are not announced at this stage. *)
Theorem classify_prints_existing :
  forall (W : Type) (env : Env W) (token : option str) (owner : str) (w : W)
         (cli : Binstar) (existing new : list str),
    outcome (classify env token owner w) = Return (cli, existing, new) ->
    printed (trace (classify env token owner w)) = map (exists_msg owner) existing.
Proof.
  intros W env token owner w cli existing new H. unfold classify in *.
  apply bind_inv in H. destruct H as (cli' & _ & H & ->).
  rewrite printed_app, printed_call by reflexivity.
  apply bind_inv in H. destruct H as ([ex nw] & Hp & H & ->).
  unfold ret, outcome in H. cbn [fst snd] in H. injection H as -> -> ->.
  rewrite printed_app, (partition_distributions_prints env cli owner _ existing new Hp).
  cbn [ret trace snd printed app]. now rewrite app_nil_r.
Qed.

(** An instance of X7. *)
Lemma classify_prints_existing_witness :
  printed (trace (classify (sim_env [] [lit "foo-1.0-0.tar.bz2"; lit "bar-2.0-0.tar.bz2"]
                                    true up)
                           None (lit "me") (sim0 [lit "linux-64/bar-2.0-0.tar.bz2"])))
  = map (exists_msg (lit "me")) [lit "linux-64/bar-2.0-0.tar.bz2"].
Proof.
  apply (classify_prints_existing sim
           (sim_env [] [lit "foo-1.0-0.tar.bz2"; lit "bar-2.0-0.tar.bz2"] true up)
           None (lit "me") (sim0 [lit "linux-64/bar-2.0-0.tar.bz2"])
           {| cli_token := None |} [lit "linux-64/bar-2.0-0.tar.bz2"]
           [lit "linux-64/foo-1.0-0.tar.bz2"]).
  reflexivity.
Defined.

(** ** The scope of the credential file *)

(** X17.  [get_temp_token] hands to the body of the [with] statement the
    path [binstar.token] inside a fresh directory, after writing the token
    there; when the body returns, exactly that directory is removed, once,
    after the last event of the body, and the value of the body is the
    value of the block. *)
Theorem get_temp_token_scope :
  forall (W B : Type) (env : Env W) (t : str) (body : str -> M W B)
         (w w1 w2 w3 w4 w5 : W) (dn : str) (v : B) (tb : list event),
    mkdtemp env w = (Return dn, w1) ->
    let fn := path_join dn (lit "binstar.token") in
    open_w env fn w1 = (Return tt, w2) ->
    fh_write env fn t w2 = (Return tt, w3) ->
    body fn w3 = (Return v, w4, tb) ->
    rmtree env dn w4 = (Return tt, w5) ->
    (forall ev, In ev tb -> is_rmtree ev = false) ->
    let run := get_temp_token env (Some t) body w in
    run = (Return v, w5, [EvMkdtemp; EvOpenW fn; EvWrite fn t] ++ tb ++ [EvRmtree dn])
    /\ filter is_rmtree (trace run) = [EvRmtree dn].
Proof.
  intros W B env t body w w1 w2 w3 w4 w5 dn v tb H1 fn H2 H3 H4 H5 Htb run.
  assert (E : run = (Return v, w5,
                     [EvMkdtemp; EvOpenW fn; EvWrite fn t] ++ tb ++ [EvRmtree dn])).
  { subst run. rewrite (get_temp_token_body_returns env t body w dn w1 w2 w3 v w4 tb
                          H1 H2 H3 H4).
    now rewrite H5. }
  split; [exact E|]. rewrite E. unfold trace. cbn [snd app filter is_rmtree].
  rewrite filter_app. cbn [filter is_rmtree].
  replace (filter is_rmtree tb) with (@nil event); [reflexivity|].
  symmetry. clear - Htb. induction tb as [|ev tb IH]; [reflexivity|].
  cbn [filter]. rewrite (Htb ev (or_introl eq_refl)).
  apply IH. intros ev' H. apply Htb. now right.
Qed.

(** An instance of X17: a body that prints one line. *)
Lemma get_temp_token_scope_witness :
  let run := get_temp_token (sim_env [] [] true up) (Some (lit "secret"))
               (fun fn => print fn) (sim0 []) in
  run = (Return tt, sim0 [],
         [EvMkdtemp; EvOpenW (lit "/tmp/tmp0/binstar.token");
          EvWrite (lit "/tmp/tmp0/binstar.token") (lit "secret")]
         ++ [EvPrint (lit "/tmp/tmp0/binstar.token")] ++ [EvRmtree (lit "/tmp/tmp0")])
  /\ filter is_rmtree (trace run) = [EvRmtree (lit "/tmp/tmp0")].
Proof.
  apply (get_temp_token_scope sim unit (sim_env [] [] true up) (lit "secret")
           (fun fn => print fn) (sim0 [])
           {| remote := []; tmpdirs := [lit "/tmp/tmp0"]; slept := 0 |}
           {| remote := []; tmpdirs := [lit "/tmp/tmp0"]; slept := 0 |}
           {| remote := []; tmpdirs := [lit "/tmp/tmp0"]; slept := 0 |}
           {| remote := []; tmpdirs := [lit "/tmp/tmp0"]; slept := 0 |}
           (sim0 []) (lit "/tmp/tmp0") tt [EvPrint (lit "/tmp/tmp0/binstar.token")]);
    try reflexivity.
  intros ev [<-|[]]. reflexivity.
Defined.

(** ** The whole batch with a token *)

Lemma uploads_none (t : list event) : Forall no_check_call t -> uploads t = [].
Proof.
  induction 1 as [|ev t H _ IH]; [reflexivity|].
  destruct ev; try discriminate; exact IH.
Qed.

(** X18.  With a usable token, when the client, the listings and the
    parsing succeed, the answers of the API are stable during the
    classification, nothing fails on the file system and every
    [anaconda upload] succeeds: the batch returns [True], it uploads
    exactly the artifacts the API does not know, in the order of the
    listing, and it prints the "already exists" lines of the others
    followed by one "Uploaded" line per upload. *)
Theorem batch_uploads_exactly_the_new :
  forall (W : Type) (env : Env W) (os_environ : environ)
         (recipe_dir owner channel : str) (variant : list str)
         (w w1 w2 w3 : W) (cli : Binstar) (t : str) (l1 l2 : list str)
         (Inv : W -> Prop) (present : str -> bool),
    truthy (resolve_token os_environ) = true ->
    get_server_api env (resolve_token os_environ) w = (Return cli, w1) ->
    cli_token cli = Some t ->
    listdir env (path_join (croot env) (lit "noarch")) w1 = (Return l1, w2) ->
    listdir env (path_join (croot env) (subdir env)) w2 = (Return l2, w3) ->
    let paths := map (fun p => path_join (lit "noarch") p) l1
                 ++ map (fun p => path_join (subdir env) p) l2 in
    let artifacts := filter (fun p => endswith p tar_bz2) paths in
    (forall p, In p artifacts -> exists t, split_pkg p = Return t) ->
    Inv w3 ->
    (forall p plat name version build w',
        In p artifacts -> split_pkg p = Return (plat, name, version, build) ->
        Inv w' ->
        exists r w'',
          distribution env cli owner name version (distro_name_of p) w' = (r, w'')
          /\ lookup_answer r = Some (present p) /\ Inv w'') ->
    (forall w', exists dn w'', mkdtemp env w' = (Return dn, w'')) ->
    (forall fn w', exists w'', open_w env fn w' = (Return tt, w'')) ->
    (forall fn d w', exists w'', fh_write env fn d w' = (Return tt, w'')) ->
    (forall argv w', exists w'', check_call env argv os_environ w' = (Return tt, w'')) ->
    (forall dn w', exists w'', rmtree env dn w' = (Return tt, w'')) ->
    let run := upload_or_check env os_environ recipe_dir owner channel variant w in
    outcome run = Return true
    /\ uploads (trace run) = filter (fun p => negb (present p)) artifacts
    /\ printed (trace run)
       = map (exists_msg owner) (filter present artifacts)
         ++ map uploaded_msg (filter (fun p => negb (present p)) artifacts).
Proof.
  intros W env os_environ recipe_dir owner channel variant w w1 w2 w3 cli t l1 l2 Inv
         present Ht Ha Hc E2 E3 paths artifacts Hparse Hw3 Hans Hmk Hop Hwr Hcc Hrm run.
  set (existing := filter present artifacts).
  set (new := filter (fun p => negb (present p)) artifacts).
  set (c := classify env (resolve_token os_environ) owner w).
  assert (Hp : outcome (partition_distributions env cli owner w1)
               = Return (existing, new))
    by now apply (partition_distributions_by_answers env cli owner w1 w2 w3 l1 l2 Inv
                    present).
  destruct (outcome_call (EvGetServerApi (resolve_token os_environ))
              (get_server_api env (resolve_token os_environ)) w) as [O1 F1].
  rewrite Ha in O1, F1. cbn [fst snd] in O1, F1.
  assert (Oc : outcome c = Return (cli, existing, new)).
  { subst c. unfold classify. rewrite (outcome_bind _ _ _ _ O1), F1.
    now rewrite (outcome_bind _ _ _ _ Hp). }
  assert (Pc : printed (trace c) = map (exists_msg owner) existing).
  { pose proof Oc as H. subst c. unfold classify in *.
    apply bind_inv in H. destruct H as (cli' & O1' & H & ->).
    rewrite O1 in O1'. injection O1' as <-. rewrite F1 in *.
    rewrite printed_app, printed_call by reflexivity.
    apply bind_inv in H. destruct H as (r & Hr & _ & ->).
    rewrite Hp in Hr. injection Hr as <-.
    rewrite printed_app, (partition_distributions_prints env cli owner w1 existing new Hp).
    cbn [ret trace snd printed app]. now rewrite app_nil_r. }
  assert (Uc : uploads (trace c) = []).
  { apply uploads_none. apply emits_classify; intros; reflexivity. }
  destruct (Hmk (final c)) as (dn & v1 & H1).
  destruct (Hop (path_join dn (lit "binstar.token")) v1) as (v2 & H2).
  destruct (Hwr (path_join dn (lit "binstar.token")) t v2) as (v3 & H3).
  destruct (upload_loop_completes env os_environ (path_join dn (lit "binstar.token"))
              owner channel new (fun q w' _ => Hcc _ w') v3) as (v4 & Hloop).
  destruct (Hrm dn v4) as (v5 & H5).
  assert (E : run = (Return true, v5,
                     trace c
                     ++ [EvMkdtemp; EvOpenW (path_join dn (lit "binstar.token"));
                         EvWrite (path_join dn (lit "binstar.token")) t]
                     ++ upload_events (path_join dn (lit "binstar.token")) owner channel new
                     ++ [EvRmtree dn])).
  { assert (Ec : classify env (resolve_token os_environ) owner w
                 = (Return (cli, existing, new), final c, trace c))
      by (rewrite <- Oc; apply run_eta).
    subst run. unfold upload_or_check.
    rewrite (bind_return _ _ w (cli, existing, new) (final c) (trace c) Ec).
    unfold upload_or_skip. rewrite Ht, Hc.
    rewrite (bind_return _ _ (final c) tt v5
               ([EvMkdtemp; EvOpenW (path_join dn (lit "binstar.token"));
                 EvWrite (path_join dn (lit "binstar.token")) t]
                ++ upload_events (path_join dn (lit "binstar.token")) owner channel new
                ++ [EvRmtree dn])).
    - unfold ret, outcome, final, trace. cbn [fst snd]. now rewrite app_nil_r.
    - rewrite (get_temp_token_body_returns env t _ (final c) dn v1 v2 v3 tt v4
                 (upload_events (path_join dn (lit "binstar.token")) owner channel new)
                 H1 H2 H3 Hloop).
      now rewrite H5. }
  assert (Et : trace run
               = trace c
                 ++ [EvMkdtemp; EvOpenW (path_join dn (lit "binstar.token"));
                     EvWrite (path_join dn (lit "binstar.token")) t]
                 ++ upload_events (path_join dn (lit "binstar.token")) owner channel new
                 ++ [EvRmtree dn]) by now rewrite E.
  split; [now rewrite E|]. rewrite Et.
  rewrite !uploads_app, !printed_app, Uc, Pc, uploads_upload_events, printed_upload_events.
  cbn [uploads printed app]. now rewrite !app_nil_r.
Qed.

(** An instance of X18: [foo] is on the account and [bar] is new. *)
Lemma batch_uploads_exactly_the_new_witness :
  let run := upload_or_check
               (sim_env [] [lit "foo-1.0-0.tar.bz2"; lit "bar-2.0-0.tar.bz2"] true up)
               (with_token (lit "secret")) (lit "recipe") (lit "me") (lit "main") []
               (sim0 [lit "linux-64/foo-1.0-0.tar.bz2"]) in
  outcome run = Return true
  /\ uploads (trace run) = [lit "linux-64/bar-2.0-0.tar.bz2"]
  /\ printed (trace run)
     = [exists_msg (lit "me") (lit "linux-64/foo-1.0-0.tar.bz2");
        uploaded_msg (lit "linux-64/bar-2.0-0.tar.bz2")].
Proof.
  pose (acct := [lit "linux-64/foo-1.0-0.tar.bz2"]).
  apply (batch_uploads_exactly_the_new sim
           (sim_env [] [lit "foo-1.0-0.tar.bz2"; lit "bar-2.0-0.tar.bz2"] true up)
           (with_token (lit "secret")) (lit "recipe") (lit "me") (lit "main") []
           (sim0 acct) (sim0 acct) (sim0 acct) (sim0 acct)
           {| cli_token := Some (lit "secret") |} (lit "secret") []
           [lit "foo-1.0-0.tar.bz2"; lit "bar-2.0-0.tar.bz2"]
           (fun w' => remote w' = acct) (fun p => mem p acct)
           eq_refl eq_refl eq_refl eq_refl eq_refl).
  - intros p [<-|[<-|[]]]; eexists; reflexivity.
  - reflexivity.
  - intros p plat name version build w' Hp _ Hw'.
    cbn [sim_env distribution up]. rewrite Hw'.
    destruct Hp as [<-|[<-|[]]]; eexists; exists w'; now repeat split.
  - intros w'. eexists. eexists. reflexivity.
  - intros fn w'. eexists. reflexivity.
  - intros fn d w'. eexists. reflexivity.
  - intros argv w'. eexists. reflexivity.
  - intros dn w'. eexists. reflexivity.
Defined.
